(** * CAPM and multi-factor analyzer: a shallow embedding of [backend/main.py]

    The analysis engine of [backend/main.py] is embedded as Rocq functions:
    [DataFetcher.get_returns], [CAPMAnalyzer.calculate_capm],
    [FactorAnalyzer.get_fama_french_factors],
    [FactorAnalyzer.calculate_factor_exposure] and the two routes that call
    the CAPM estimator.

    Python values are modelled as follows.
    - A [float] is an element of a carrier [F] with the operations of the
      class [Float64].  Two carriers are provided: the IEEE doubles of the
      kernel ([Binary64.float64]), on which the engine computes, and the
      real numbers with one NaN ([Exact.xreal]), on which the algebraic
      identities of the regression are proved (no rounding, no infinities).
    - A [pd.Series] is the list of its (date, value) rows, in index order.
    - An exception is a value of [exn]; a computation that may raise has
      type [exn F + A].
    - The libraries the engine calls but does not contain (yfinance, the
      numpy generator, [np.power], statsmodels' OLS, pandas' [asfreq], the
      interpreter's [hash]) are type classes whose methods are the calls. *)

From Stdlib Require Import ZArith List FinFun String Ascii Bool Lia.
From Stdlib Require Import PrimFloat Uint63 SpecFloat FloatOps FloatAxioms.
From Stdlib Require Import Reals Lra ClassicalEpsilon.
Import ListNotations.

Set Implicit Arguments.
Set Warnings "-register-all".
Local Open Scope string_scope.
Local Open Scope list_scope.

(** ** Python floats *)

Class Float64 (F : Type) : Type := {
  of_int : Z -> F;
  nan : F;
  fadd : F -> F -> F;
  fsub : F -> F -> F;
  fmul : F -> F -> F;
  fdiv : F -> F -> F;
  fabs : F -> F;
  fgt : F -> F -> bool;
  fle : F -> F -> bool;
  feqb : F -> F -> bool;
  isnan : F -> bool;
  isnan_nan : isnan nan = true;
  fgt_not_fle : forall x y, fgt x y = true -> fle x y = false
}.

Declare Scope py_scope.
Delimit Scope py_scope with py.
Infix "+" := fadd : py_scope.
Infix "-" := fsub : py_scope.
Infix "*" := fmul : py_scope.
Infix "/" := fdiv : py_scope.
Infix ">" := fgt : py_scope.
Infix "<=" := fle : py_scope.

(** A decimal literal [n/d] of the source: the double nearest to the
    quotient, which a correctly rounded division of the two integers gives. *)
Definition decimal {F} `{Float64 F} (n d : Z) : F := (of_int n / of_int d)%py.

(** ** Exceptions and messages *)

(** A piece of an f-string: literal text or an interpolated value (numbers
    are kept as values; their formatting is not modelled). *)
Inductive piece (F : Type) : Type :=
| Txt (s : string)
| IntV (n : Z)
| FltV (x : F).
Arguments Txt {F} s.
Arguments IntV {F} n.
Arguments FltV {F} x.

Definition message (F : Type) := list (piece F).

Inductive exn (F : Type) : Type :=
| ValueError (msg : message F)
| KeyError (key : string)
| IndexError (msg : message F)
| LibraryError (name : string) (msg : message F)
| HTTPException (status_code : Z) (detail : message F).
Arguments KeyError {F} key.

(** [str(e)].  A [KeyError] prints the repr of its key; an [HTTPException]
    prints as [status: detail]. *)
Definition str_exn {F} (e : exn F) : message F :=
  match e with
  | ValueError msg => msg
  | KeyError k => [Txt ("'" ++ k ++ "'")]
  | IndexError msg => msg
  | LibraryError _ msg => msg
  | HTTPException c d => IntV c :: Txt ": " :: d
  end.

Definition status_of {F} (e : exn F) : option Z :=
  match e with
  | HTTPException c _ => Some c
  | _ => None
  end.

(** 4xx is a client fault, 5xx a server fault. *)
Definition client_fault {F} (e : exn F) : bool :=
  match status_of e with
  | Some c => ((400 <=? c) && (c <? 500))%Z
  | None => false
  end.

Definition bind {E A B} (m : E + A) (k : A -> E + B) : E + B :=
  match m with
  | inl e => inl e
  | inr a => k a
  end.

Notation "x <- m ;; k" := (bind m (fun x => k))
  (at level 61, m at next level, right associativity).
Notation "'raise' e" := (inl e) (at level 60).
Notation "'ret' a" := (inr a) (at level 60).

(** [try: body except Exception as e: raise h(e)] *)
Definition try_except {E A} (body : E + A) (handler : E -> E) : E + A :=
  match body with
  | inl e => inl (handler e)
  | inr a => inr a
  end.

(** ** Python values returned to the response layer *)

Inductive pyval (F : Type) : Type :=
| PyFloat (x : F)
| PyInt (n : Z)
| PyStr (s : string)
| PyList (l : list (pyval F))
| PyDict (d : list (string * pyval F)).
Arguments PyInt {F} n.
Arguments PyStr {F} s.

Definition pydict (F : Type) := list (string * pyval F).

Fixpoint assoc {A} (k : string) (d : list (string * A)) : option A :=
  match d with
  | [] => None
  | (k', v) :: d' => if String.eqb k k' then Some v else assoc k d'
  end.

Definition keys {A} (d : list (string * A)) : list string := map fst d.

(** [series[key]] on a string-indexed series of numbers. *)
Definition getitem {F A} (s : list (string * A)) (k : string) : exn F + A :=
  match assoc k s with
  | Some v => ret v
  | None => raise (KeyError k)
  end.

(** ** pandas *)

Definition date := Z.
Definition Series (F : Type) := list (date * F).

Fixpoint loc {A} (d : date) (s : list (date * A)) : option A :=
  match s with
  | [] => None
  | (d', v) :: s' => if Z.eqb d d' then Some v else loc d s'
  end.

Definition index {A} (s : list (date * A)) : list date := map fst s.
Definition values {A} (s : list (date * A)) : list A := map snd s.

Section Pandas.
Context {F : Type} `{Float64 F}.

(** [s.pct_change()]: [s / s.shift(1) - 1]; the first row has no
    predecessor and is NaN (prices are taken as the provider gives them;
    the forward fill of missing prices that older pandas applies first is
    not modelled). *)
Fixpoint pct_changes (prev : F) (rest : Series F) : Series F :=
  match rest with
  | [] => []
  | (d, p) :: tl => (d, (p / prev - of_int 1)%py) :: pct_changes p tl
  end.

Definition pct_change (s : Series F) : Series F :=
  match s with
  | [] => []
  | (d0, p0) :: tl => (d0, nan) :: pct_changes p0 tl
  end.

Definition dropna (s : Series F) : Series F :=
  filter (fun r => negb (isnan (snd r))) s.

(** [pd.concat([a, b], axis=1, join='inner')]: the rows of [a] whose date is
    also in [b], in the order of [a] (indexes are unique: one row a day). *)
Fixpoint concat_inner (a b : Series F) : list (date * (F * F)) :=
  match a with
  | [] => []
  | (d, x) :: a' =>
      match loc d b with
      | Some y => (d, (x, y)) :: concat_inner a' b
      | None => concat_inner a' b
      end
  end.

(** [frame.dropna()]: rows with a NaN in any column go. *)
Definition dropna2 (f : list (date * (F * F))) : list (date * (F * F)) :=
  filter (fun r => negb (isnan (fst (snd r)) || isnan (snd (snd r)))) f.

(** [a.align(b, join='inner')] followed by [a + b]. *)
Definition add_aligned (a b : Series F) : Series F :=
  map (fun r => (fst r, (fst (snd r) + snd (snd r))%py)) (concat_inner a b).

(** [a.align(b, join='inner')]: both sides on the common dates. *)
Definition align_inner (a b : Series F) : Series F * Series F :=
  let j := concat_inner a b in
  (map (fun r => (fst r, fst (snd r))) j, map (fun r => (fst r, snd (snd r))) j).

Definition scale (s : Series F) (k : F) : Series F :=
  map (fun r => (fst r, (snd r * k)%py)) s.

(** The builtin [sum(l)]: additions from left to right, starting from the
    integer 0 (the compensation term of recent interpreters, which leaves
    exact sums and NaN as they are, is not modelled). *)
Definition py_sum (l : list F) : F := fold_left fadd l (of_int 0).

(** [s.prod()] and [s.mean()] of a series without NaN, as folds from left
    to right (numpy adds pairwise; the order matters to the last bits of a
    double only). *)
Definition np_prod (l : list F) : F := fold_left fmul l (of_int 1).
Definition mean (l : list F) : F :=
  (fold_left fadd l (of_int 0) / of_int (Z.of_nat (List.length l)))%py.

End Pandas.

(** ** yfinance *)

(** [yf.Ticker(t).history(period=p)['Close']]: the closing prices, or the
    exception the provider raised. *)
Class YFinance (F : Type) : Type := {
  history : string -> string -> exn F + Series F
}.

Section DataFetcher.
Context {F : Type} `{Float64 F} `{YFinance F}.

(** The body of [get_returns] once the price history is at hand. *)
Definition returns_of_history (ticker : string) (hist : exn F + Series F)
  : exn F + Series F :=
  try_except
    (h <- hist ;;
     match h with
     | [] => raise (ValueError [Txt "No data found for "; Txt ticker])
     | _ => ret (dropna (pct_change h))
     end)
    (fun e => HTTPException 400
       (Txt "Error fetching data for " :: Txt ticker :: Txt ": " :: str_exn e)).

Definition get_returns (ticker period : string) : exn F + Series F :=
  returns_of_history ticker (history ticker period).

(** [get_risk_free_rate]: last close of ^TNX over one day, in percent; 4%
    on any failure. *)
Definition get_risk_free_rate : F :=
  match history "^TNX" "1d" with
  | inr h =>
      match rev h with
      | (_, c) :: _ => (c / of_int 100)%py
      | [] => decimal 4 100
      end
  | inl _ => decimal 4 100
  end.

End DataFetcher.

(** ** numpy and statsmodels *)

Class NumPyMath (F : Type) : Type := {
  np_power : F -> F -> F
}.

(** What [sm.OLS(y, X).fit()] exposes to the engine; the series are indexed
    by the names of the columns of [X]. *)
Record RegressionResults (F : Type) : Type := {
  params : list (string * F);
  bse : list (string * F);
  pvalues : list (string * F);
  rsquared : F;
  fvalue : F;
  f_pvalue : F;
  aic : F;
  bic : F
}.

(** A design matrix: its named columns. *)
Definition DataFrame (F : Type) := list (string * list F).

Class StatsModels (F : Type) : Type := {
  OLS_fit : list F -> DataFrame F -> exn F + RegressionResults F
}.

Section AddConstant.
Context {F : Type} `{Float64 F}.

(** statsmodels' test for a column that already is a constant:
    [np.ptp(s) == 0.0 and np.any(s != 0.0)]. *)
Definition is_nonzero_const (col : list F) : bool :=
  match col with
  | [] => false
  | x :: _ =>
      forallb (feqb x) col && existsb (fun v => negb (feqb v (of_int 0))) col
  end.

Definition nrows (X : DataFrame F) : nat :=
  match X with
  | [] => 0
  | (_, col) :: _ => List.length col
  end.

(** [sm.add_constant(X)] with its defaults [prepend=True],
    [has_constant='skip']: a column of ones named [const] is put first,
    unless the data already has a non-zero constant column, in which case
    the data is returned as it is. *)
Definition add_constant (X : DataFrame F) : DataFrame F :=
  if existsb (fun c => is_nonzero_const (snd c)) X then X
  else ("const", repeat (of_int 1) (nrows X)) :: X.

End AddConstant.

(** ** CAPMAnalyzer *)

Section CAPM.
Context {F : Type} `{Float64 F} `{NumPyMath F} `{StatsModels F}.

Definition capm_result
  (beta alpha r_squared expected actual rf premium p_value std_error : F)
  (n : nat) : pydict F :=
  [ ("beta", PyFloat beta);
    ("alpha", PyFloat alpha);
    ("r_squared", PyFloat r_squared);
    ("expected_return", PyFloat expected);
    ("actual_return", PyFloat actual);
    ("treasury_yield", PyFloat rf);
    ("market_premium", PyFloat premium);
    ("p_value", PyFloat p_value);
    ("std_error", PyFloat std_error);
    ("confidence_interval",
       PyList [ PyFloat (beta - decimal 196 100 * std_error)%py;
                PyFloat (beta + decimal 196 100 * std_error)%py ]);
    ("n_observations", PyInt (Z.of_nat n)) ].

(** The [try] block of [calculate_capm]. *)
Definition calculate_capm_body
  (asset_returns market_returns : Series F) (risk_free_rate : F)
  : exn F + pydict F :=
  let aligned_data := concat_inner asset_returns market_returns in
  match aligned_data with
  | [] => raise (ValueError
            [Txt "No overlapping data between asset and market returns"])
  | _ :: _ =>
    let aligned_data := dropna2 aligned_data in
    if (List.length aligned_data <? 10)%nat then
      raise (ValueError [Txt "Insufficient data points after alignment"])
    else
      let asset := map (fun r => fst (snd r)) aligned_data in
      let market := map (fun r => snd (snd r)) aligned_data in
      let excess_asset :=
        map (fun x => x - risk_free_rate / of_int 252)%py asset in
      let excess_market :=
        map (fun x => x - risk_free_rate / of_int 252)%py market in
      let X := add_constant [("market", excess_market)] in
      model <- OLS_fit excess_asset X ;;
      let n_days := List.length aligned_data in
      let total_return :=
        (np_prod (map (fun x => of_int 1 + x) asset) - of_int 1)%py in
      let actual_return_annualized :=
        (np_power (of_int 1 + total_return)
                  (of_int 252 / of_int (Z.of_nat n_days)) - of_int 1)%py in
      beta <- getitem (params model) "market" ;;
      let premium := (mean excess_market * of_int 252)%py in
      let expected_return_annualized :=
        (risk_free_rate + beta * premium)%py in
      const <- getitem (params model) "const" ;;
      p_value <- getitem (pvalues model) "market" ;;
      std_error <- getitem (bse model) "market" ;;
      ret (capm_result beta (const * of_int 252)%py (rsquared model)
             expected_return_annualized actual_return_annualized
             risk_free_rate premium p_value std_error
             (List.length aligned_data))
  end.

(** [except Exception as e: raise HTTPException(status_code=500, ...)] *)
Definition calculate_capm
  (asset_returns market_returns : Series F) (risk_free_rate : F)
  : exn F + pydict F :=
  try_except
    (calculate_capm_body asset_returns market_returns risk_free_rate)
    (fun e => HTTPException 500 (Txt "CAPM calculation failed: " :: str_exn e)).

(** The rows the regression runs on. *)
Definition aligned_rows (asset_returns market_returns : Series F)
  : list (date * (F * F)) :=
  dropna2 (concat_inner asset_returns market_returns).

Definition short_message (asset_returns market_returns : Series F) : string :=
  match concat_inner asset_returns market_returns with
  | [] => "No overlapping data between asset and market returns"
  | _ :: _ => "Insufficient data points after alignment"
  end.

(** Lines 88-108: the dictionary built from the fitted model. *)
Definition capm_report (rows : list (date * (F * F))) (rf : F)
  (model : RegressionResults F) : exn F + pydict F :=
  let asset := map (fun r => fst (snd r)) rows in
  let market := map (fun r => snd (snd r)) rows in
  let excess_market := map (fun x => x - rf / of_int 252)%py market in
  beta <- getitem (params model) "market" ;;
  const <- getitem (params model) "const" ;;
  p_value <- getitem (pvalues model) "market" ;;
  std_error <- getitem (bse model) "market" ;;
  ret (capm_result beta (const * of_int 252)%py (rsquared model)
         (rf + beta * (mean excess_market * of_int 252))%py
         (np_power
            (of_int 1
             + (np_prod (map (fun x => of_int 1 + x) asset) - of_int 1))
            (of_int 252 / of_int (Z.of_nat (List.length rows)))
          - of_int 1)%py
         rf (mean excess_market * of_int 252)%py p_value std_error
         (List.length rows)).

End CAPM.

(** ** Python dictionaries keep insertion order; a later write to a key
    replaces the value where the key stands. *)
Fixpoint dict_set {A} (k : string) (v : A) (d : list (string * A))
  : list (string * A) :=
  match d with
  | [] => [(k, v)]
  | (k', v') :: d' =>
      if String.eqb k k' then (k, v) :: d' else (k', v') :: dict_set k v d'
  end.

Definition dict_update {A} (d e : list (string * A)) : list (string * A) :=
  fold_left (fun acc kv => dict_set (fst kv) (snd kv) acc) e d.

(** ** Routes that run the CAPM estimator (cache lookups left out) *)

Section Routes.
Context {F : Type} `{Float64 F} `{NumPyMath F} `{StatsModels F} `{YFinance F}.

(** [GET /api/capm], on a cache miss. *)
Definition api_capm (ticker period : string) : exn F + pydict F :=
  try_except
    (asset_returns <- get_returns ticker period ;;
     market_returns <- get_returns "^GSPC" period ;;
     let risk_free_rate := get_risk_free_rate in
     capm <- calculate_capm asset_returns market_returns risk_free_rate ;;
     ret (dict_update
            (dict_update [("ticker", PyStr ticker); ("period", PyStr period)]
                         capm)
            [("interpretation", PyDict
               [("beta_meaning",
                   PyStr "Measures sensitivity to market movements");
                ("alpha_meaning",
                   PyStr "Excess return above CAPM prediction");
                ("r_squared_meaning",
                   PyStr "Percentage of variance explained by market")])]))
    (fun e => HTTPException 400 (str_exn e)).

(** Lines 553-567 of [portfolio_capm]: the checks on the parsed lists. *)
Definition validate_portfolio (ticker_list : list string) (weight_list : list F)
  : exn F + F :=
  if negb (List.length ticker_list =? List.length weight_list)%nat then
    raise (HTTPException 400
      [Txt "Tickers and weights must have same length. Got ";
       IntV (Z.of_nat (List.length ticker_list)); Txt " tickers and ";
       IntV (Z.of_nat (List.length weight_list)); Txt " weights"])
  else if (List.length ticker_list =? 0)%nat then
    raise (HTTPException 400 [Txt "No valid tickers provided"])
  else
    let total_weight := py_sum weight_list in
    if (fabs (total_weight - of_int 100) > decimal 1 100)%py then
      raise (HTTPException 400
        [Txt "Weights must sum to 100. Current sum: "; FltV total_weight])
    else ret total_weight.

(** The loop that fills [all_returns]. *)
Fixpoint fetch_all (tickers : list string) (all_returns : list (string * Series F))
  : exn F + list (string * Series F) :=
  match tickers with
  | [] => ret all_returns
  | ticker :: rest =>
      match get_returns ticker "2y" with
      | inl e =>
          raise (HTTPException 400
            (Txt "Error fetching data for " :: Txt ticker :: Txt ": "
               :: str_exn e))
      | inr returns => fetch_all rest (dict_set ticker returns all_returns)
      end
  end.

(** The loop that builds [portfolio_returns] over [zip(tickers, weights)]. *)
Fixpoint weighted_sum (all_returns : list (string * Series F))
  (pairs : list (string * F)) (portfolio_returns : option (Series F))
  : exn F + option (Series F) :=
  match pairs with
  | [] => ret portfolio_returns
  | (ticker, weight) :: rest =>
      returns <- getitem all_returns ticker ;;
      let weighted_returns := scale returns (weight / of_int 100)%py in
      weighted_sum all_returns rest
        (Some match portfolio_returns with
              | None => weighted_returns
              | Some p => add_aligned p weighted_returns
              end)
  end.

(** What one more ticker adds to the composite return of date [d]. *)
Definition add_ticker (all_returns : list (string * Series F)) (d : date)
  (acc : option F) (tw : string * F) : option F :=
  match acc, assoc (fst tw) all_returns with
  | Some a, Some r =>
      match loc d r with
      | Some x => Some (a + x * (snd tw / of_int 100))%py
      | None => None
      end
  | _, _ => None
  end.

Definition insufficient (text : string) (n : nat) (tail : string) : exn F :=
  HTTPException 400 [Txt text; IntV (Z.of_nat n); Txt tail].

(** [GET /api/portfolio/capm], from the parsed ticker and weight lists. *)
Definition portfolio_capm (ticker_list : list string) (weight_list : list F)
  : exn F + pydict F :=
  try_except
    (total_weight <- validate_portfolio ticker_list weight_list ;;
     all_returns <- fetch_all ticker_list [] ;;
     portfolio_returns <-
       weighted_sum all_returns (combine ticker_list weight_list) None ;;
     match portfolio_returns with
     | None =>
         raise (insufficient
           "Insufficient data for portfolio analysis. Only " 0
           " data points available")
     | Some p =>
       if (List.length p <? 30)%nat then
         raise (insufficient
           "Insufficient data for portfolio analysis. Only " (List.length p)
           " data points available")
       else
         market_returns <- get_returns "^GSPC" "2y" ;;
         let risk_free_rate := get_risk_free_rate in
         let '(p', market_aligned) := align_inner p market_returns in
         if (List.length p' <? 30)%nat then
           raise (insufficient
             "Not enough overlapping data with market. Only "
             (List.length p') " common data points")
         else
           capm <- calculate_capm p' market_aligned risk_free_rate ;;
           ret (dict_update
                  [("portfolio", PyList (map PyStr ticker_list));
                   ("weights", PyList (map (@PyFloat F) weight_list));
                   ("total_weight", PyFloat total_weight);
                   ("n_observations", PyInt (Z.of_nat (List.length p')))]
                  capm)
     end)
    (fun e =>
       match e with
       | HTTPException _ _ => e
       | _ => HTTPException 500
                (Txt "Portfolio analysis failed: " :: str_exn e)
       end).

End Routes.

(** ** The interpreter, the numpy generator and pandas' resampling *)

(** [hash(s)] of a string: fixed within a process run. *)
Class PyRuntime : Type := {
  py_hash : string -> Z
}.

(** The global generator of [np.random], threaded as a state. *)
Class NumPyRandom (F : Type) : Type := {
  rng_state : Type;
  seed : Z -> rng_state;
  normal : F -> F -> rng_state -> F * rng_state;
  normal_n : F -> F -> nat -> rng_state -> list F * rng_state;
  random : rng_state -> F * rng_state;
  normal_n_length :
    forall m s n g, List.length (fst (normal_n m s n g)) = n
}.

(** [x.asfreq('B', method='pad')] on a date-indexed series or frame. *)
Class PandasResample (F : Type) : Type := {
  asfreq_B : forall A : Type, list (date * A) -> exn F + list (date * A)
}.

(** ** Strings *)

Definition lower_ascii (c : ascii) : ascii :=
  let n := nat_of_ascii c in
  if ((65 <=? n) && (n <=? 90))%nat then ascii_of_nat (n + 32) else c.

Fixpoint lower (s : string) : string :=
  match s with
  | EmptyString => EmptyString
  | String c s' => String (lower_ascii c) (lower s')
  end.

(** [p in s] *)
Fixpoint contains (p s : string) : bool :=
  String.prefix p s ||
  match s with
  | EmptyString => false
  | String _ s' => contains p s'
  end.

(** Tickers made of the letter Z only. *)
Fixpoint zs (n : nat) : string :=
  match n with
  | O => EmptyString
  | S n' => String "Z" (zs n')
  end.

(** ** FactorAnalyzer *)

Record FactorRow (F : Type) : Type := {
  MKT_RF : F;
  SMB : F;
  HML : F;
  RF : F
}.

Record Profile (F : Type) : Type := {
  market_vol : F;
  base_mkt : F;
  hml_trend : F;
  smb_trend : F
}.

Definition tech_tickers : list string :=
  ["aapl"; "googl"; "msft"; "tsla"; "nvda"; "amzn"].
Definition value_tickers : list string :=
  ["xom"; "cvx"; "jpm"; "wmt"; "ko"; "pg"].
Definition small_cap_tickers : list string := [].

(** One day, in the microseconds of a timestamp. *)
Definition day_us : Z := 86400000000.

Section FactorSynthesizer.
Context {F : Type} `{Float64 F} `{NumPyRandom F} `{PyRuntime}.

Definition profile_of (ticker : string) : Profile F :=
  let ticker_lower := lower ticker in
  if existsb (fun tech => contains tech ticker_lower) tech_tickers then
    {| market_vol := decimal 18 1000; base_mkt := decimal 4 10000;
       hml_trend := decimal (-3) 10000; smb_trend := decimal (-1) 10000 |}
  else if existsb (fun v => contains v ticker_lower) value_tickers then
    {| market_vol := decimal 12 1000; base_mkt := decimal 2 10000;
       hml_trend := decimal 2 10000; smb_trend := decimal (-1) 10000 |}
  else if existsb (fun s => contains s ticker_lower) small_cap_tickers then
    {| market_vol := decimal 22 1000; base_mkt := decimal 3 10000;
       hml_trend := of_int 0; smb_trend := decimal 2 10000 |}
  else
    {| market_vol := decimal 15 1000; base_mkt := decimal 3 10000;
       hml_trend := of_int 0; smb_trend := decimal (-1) 10000 |}.

Fixpoint cumsum_from (acc : F) (l : list F) : list F :=
  match l with
  | [] => []
  | x :: tl => (acc + x)%py :: cumsum_from (acc + x)%py tl
  end.

Definition cumsum (l : list F) : list F :=
  match l with
  | [] => []
  | x :: tl => x :: cumsum_from x tl
  end.

(** [pd.date_range(start=now - timedelta(days=730), end=now, freq='D')] *)
Definition date_range_2y (now : Z) : list date :=
  map (fun k => (now - 730 * day_us + Z.of_nat k * day_us)%Z) (seq 0 731).

Fixpoint factor_rows (mkt smb hml rf : list F) : list (FactorRow F) :=
  match mkt, smb, hml, rf with
  | m :: mkt', s :: smb', h :: hml', r :: rf' =>
      {| MKT_RF := m; SMB := s; HML := h; RF := r |}
        :: factor_rows mkt' smb' hml' rf'
  | _, _, _, _ => []
  end.

(** The four cumulative factor paths drawn after [np.random.seed]. *)
Definition factor_columns (ticker : string) (n_points : nat)
  : list (FactorRow F) * rng_state :=
  let g := seed (py_hash ticker mod 10000)%Z in
  let p := profile_of ticker in
  let '(mkt, g) := normal_n (base_mkt p) (market_vol p) n_points g in
  let '(smb, g) := normal_n (smb_trend p) (decimal 8 1000) n_points g in
  let '(hml, g) := normal_n (hml_trend p) (decimal 7 1000) n_points g in
  let '(rf, g) := normal_n (decimal 1 10000) (decimal 3 10000) n_points g in
  (factor_rows (cumsum mkt) (cumsum smb) (cumsum hml) (cumsum rf), g).

(** [get_fama_french_factors(ticker)] called when the clock reads [now];
    it returns the frame and leaves the generator in the second state. *)
Definition get_fama_french_factors (now : Z) (ticker : string)
  : list (date * FactorRow F) * rng_state :=
  let dates := date_range_2y now in
  let '(rows, g) := factor_columns ticker (List.length dates) in
  (combine dates rows, g).

End FactorSynthesizer.

Section FactorExposure.
Context {F : Type} `{Float64 F} `{StatsModels F} `{NumPyRandom F}
        `{PandasResample F}.

(** [a.index.intersection(b.index)] *)
Definition intersection (a b : list date) : list date :=
  filter (fun d => existsb (Z.eqb d) b) a.

(** [s.loc[dates]] for dates of the index. *)
Definition loc_rows {A} (s : list (date * A)) (dates : list date)
  : list (date * A) :=
  flat_map (fun d => match loc d s with
                     | Some v => [(d, v)]
                     | None => []
                     end) dates.

(** The dictionary returned when fewer than 30 dates are common. *)
Definition demo_small (g : rng_state) (n_common : nat)
  : pydict F * rng_state :=
  let '(z1, g) := normal (of_int 0) (decimal 2 10) g in
  let '(z2, g) := normal (of_int 0) (decimal 3 10) g in
  let '(z3, g) := normal (of_int 0) (decimal 2 10) g in
  let '(z4, g) := normal (of_int 0) (decimal 2 100) g in
  let '(u1, g) := random g in
  let '(u2, g) := random g in
  let '(u3, g) := random g in
  let '(u4, g) := random g in
  let '(u5, g) := random g in
  ([ ("market_beta", PyFloat (of_int 1 + z1)%py);
     ("smb_beta", PyFloat z2);
     ("hml_beta", PyFloat z3);
     ("alpha", PyFloat z4);
     ("r_squared", PyFloat (decimal 4 10 + u1 * decimal 4 10)%py);
     ("factor_pvalues", PyDict
        [ ("MKT", PyFloat (decimal 1 1000 + u2 * decimal 1 100)%py);
          ("SMB", PyFloat (decimal 5 100 + u3 * decimal 3 10)%py);
          ("HML", PyFloat (decimal 5 100 + u4 * decimal 3 10)%py) ]);
     ("n_observations",
        PyInt (if (0 <? n_common)%nat then Z.of_nat n_common else 100));
     ("regression_summary", PyDict
        [ ("f_statistic", PyFloat (of_int 25 + u5 * of_int 10)%py);
          ("f_pvalue", PyFloat (decimal 1 10000));
          ("aic", PyFloat (of_int (-800)));
          ("bic", PyFloat (of_int (-780))) ]) ], g).

(** The dictionary returned by the [except] clause. *)
Definition demo_error (g : rng_state) : pydict F * rng_state :=
  let '(z1, g) := normal (of_int 0) (decimal 2 10) g in
  let '(z2, g) := normal (of_int 0) (decimal 3 10) g in
  let '(z3, g) := normal (of_int 0) (decimal 2 10) g in
  let '(z4, g) := normal (of_int 0) (decimal 2 100) g in
  let '(u1, g) := random g in
  let '(u2, g) := random g in
  let '(u3, g) := random g in
  let '(u4, g) := random g in
  ([ ("market_beta", PyFloat (of_int 1 + z1)%py);
     ("smb_beta", PyFloat z2);
     ("hml_beta", PyFloat z3);
     ("alpha", PyFloat z4);
     ("r_squared", PyFloat (decimal 4 10 + u1 * decimal 4 10)%py);
     ("factor_pvalues", PyDict
        [ ("MKT", PyFloat (decimal 1 1000 + u2 * decimal 1 100)%py);
          ("SMB", PyFloat (decimal 5 100 + u3 * decimal 3 10)%py);
          ("HML", PyFloat (decimal 5 100 + u4 * decimal 3 10)%py) ]);
     ("n_observations", PyInt 100);
     ("regression_summary", PyDict
        [ ("f_statistic", PyFloat (of_int 25));
          ("f_pvalue", PyFloat (decimal 1 10000));
          ("aic", PyFloat (of_int (-800)));
          ("bic", PyFloat (of_int (-780))) ]) ], g).

(** The dictionary built from a fitted model (lines 235-253). *)
Definition fitted_result (model : RegressionResults F) (n : nat)
  : exn F + pydict F :=
  market_beta <- getitem (params model) "MKT_RF" ;;
  smb_beta <- getitem (params model) "SMB" ;;
  hml_beta <- getitem (params model) "HML" ;;
  const <- getitem (params model) "const" ;;
  p_mkt <- getitem (pvalues model) "MKT_RF" ;;
  p_smb <- getitem (pvalues model) "SMB" ;;
  p_hml <- getitem (pvalues model) "HML" ;;
  ret [ ("market_beta", PyFloat market_beta);
        ("smb_beta", PyFloat smb_beta);
        ("hml_beta", PyFloat hml_beta);
        ("alpha", PyFloat (const * of_int 252)%py);
        ("r_squared", PyFloat (rsquared model));
        ("factor_pvalues", PyDict
           [ ("MKT", PyFloat p_mkt);
             ("SMB", PyFloat p_smb);
             ("HML", PyFloat p_hml) ]);
        ("n_observations", PyInt (Z.of_nat n));
        ("regression_summary", PyDict
           [ ("f_statistic", PyFloat (fvalue model));
             ("f_pvalue", PyFloat (f_pvalue model));
             ("aic", PyFloat (aic model));
             ("bic", PyFloat (bic model)) ]) ].

(** [X.isna().any(axis=1)] at row [i]. *)
Definition isna_any (X : DataFrame F) (i : nat) : bool :=
  existsb (fun c => isnan (nth i (snd c) nan)) X.

(** [col[mask]] *)
Definition compress {A} (mask : list bool) (col : list A) : list A :=
  map snd (filter fst (combine mask col)).

(** The number of dates the two resampled indexes share, when both
    resamplings succeed. *)
Definition overlap (asset_returns : Series F)
  (factors : list (date * FactorRow F)) : exn F + nat :=
  a <- asfreq_B asset_returns ;;
  f <- asfreq_B factors ;;
  ret (List.length (intersection (index a) (index f))).

(** The [try] block of [calculate_factor_exposure]; it returns the
    dictionary and the state of the generator. *)
Definition factor_exposure_body (g : rng_state)
  (asset_returns : Series F) (factors : list (date * FactorRow F))
  : exn F + (pydict F * rng_state) :=
  asset_returns_business <- asfreq_B asset_returns ;;
  factors_business <- asfreq_B factors ;;
  let common_dates :=
    intersection (index asset_returns_business) (index factors_business) in
  if (List.length common_dates <? 30)%nat then
    ret (demo_small g (List.length common_dates))
  else
    let aligned_asset := loc_rows asset_returns_business common_dates in
    let aligned_factors := loc_rows factors_business common_dates in
    let excess_returns :=
      map (fun ar => (snd (fst ar) - RF (snd (snd ar)))%py)
          (combine aligned_asset aligned_factors) in
    let X :=
      add_constant
        [ ("MKT_RF", map (fun r => MKT_RF (snd r)) aligned_factors);
          ("SMB", map (fun r => SMB (snd r)) aligned_factors);
          ("HML", map (fun r => HML (snd r)) aligned_factors) ] in
    let valid_mask :=
      map (fun i => negb (isnan (nth i excess_returns nan) || isna_any X i))
          (seq 0 (List.length excess_returns)) in
    let excess_returns_clean := compress valid_mask excess_returns in
    let X_clean := map (fun c => (fst c, compress valid_mask (snd c))) X in
    if (List.length excess_returns_clean <? 30)%nat then
      raise (ValueError [Txt "Not enough valid data points for regression"])
    else
      model <- OLS_fit excess_returns_clean X_clean ;;
      d <- fitted_result model (List.length excess_returns_clean) ;;
      ret (d, g).

(** [except Exception: return {...}]: nothing is raised to the caller. *)
Definition calculate_factor_exposure (g : rng_state)
  (asset_returns : Series F) (factors : list (date * FactorRow F))
  : pydict F * rng_state :=
  match factor_exposure_body g asset_returns factors with
  | inr r => r
  | inl _ => demo_error g
  end.

End FactorExposure.

(** The keys of a dictionary, those of nested dictionaries included. *)
Fixpoint all_keys {F} (v : pyval F) : list string :=
  match v with
  | PyDict d =>
      (fix go (d : list (string * pyval F)) : list string :=
         match d with
         | [] => []
         | (k, v') :: tl => k :: all_keys v' ++ go tl
         end) d
  | PyList l =>
      (fix go (l : list (pyval F)) : list string :=
         match l with
         | [] => []
         | v' :: tl => all_keys v' ++ go tl
         end) l
  | _ => []
  end.

(** The keys of the dictionary built from a fitted model. *)
Definition fitted_keys : list string :=
  [ "market_beta"; "smb_beta"; "hml_beta"; "alpha"; "r_squared";
    "factor_pvalues"; "MKT"; "SMB"; "HML"; "n_observations";
    "regression_summary"; "f_statistic"; "f_pvalue"; "aic"; "bic" ].

(** Modelled from the spec: a result "flagged as placeholder" (sections 4.5,
    8 and 9: an explicit degraded/placeholder flag in the result) carries a
    key that the result of a genuine regression does not have. *)
Definition flagged {F} (d : pydict F) : bool :=
  existsb (fun k => negb (existsb (String.eqb k) fitted_keys))
          (all_keys (PyDict d)).

(** ** The carrier [binary64]: IEEE 754 doubles *)

Module Binary64.

(** [float(n)] for an integer below [2^63] in absolute value. *)
Definition float_of_int (z : Z) : float :=
  match z with
  | Z0 => PrimFloat.zero
  | Zpos _ => PrimFloat.of_uint63 (Uint63.of_Z z)
  | Zneg p => PrimFloat.opp (PrimFloat.of_uint63 (Uint63.of_Z (Zpos p)))
  end.

Lemma SFcompare_antisym (x y : spec_float) :
  SFcompare y x = option_map CompOpp (SFcompare x y).
Proof.
  destruct x as [sx|sx| |sx mx ex], y as [sy|sy| |sy my ey]; simpl;
    try reflexivity;
    try (destruct sx; reflexivity);
    try (destruct sy; reflexivity);
    try (destruct sx, sy; reflexivity).
  destruct sx, sy; try reflexivity;
    rewrite (Z.compare_antisym ex ey);
    destruct (ex ?= ey)%Z; simpl; try reflexivity; f_equal;
    change (PosDef.Pos.compare_cont Eq my mx) with (Pos.compare_cont Eq my mx);
    change (PosDef.Pos.compare_cont Eq mx my) with (Pos.compare_cont Eq mx my);
    rewrite (Pos.compare_cont_antisym mx my Eq); reflexivity.
Qed.

Lemma ltb_not_leb (x y : float) :
  PrimFloat.ltb y x = true -> PrimFloat.leb x y = false.
Proof.
  rewrite ltb_spec, leb_spec. unfold SFltb, SFleb.
  rewrite (SFcompare_antisym (Prim2SF y) (Prim2SF x)).
  destruct (SFcompare (Prim2SF y) (Prim2SF x)) as [[ | | ]|]; simpl;
    congruence.
Qed.

#[export] Instance float64 : Float64 float := {|
  of_int := float_of_int;
  nan := PrimFloat.nan;
  fadd := PrimFloat.add;
  fsub := PrimFloat.sub;
  fmul := PrimFloat.mul;
  fdiv := PrimFloat.div;
  fabs := PrimFloat.abs;
  fgt := fun x y => PrimFloat.ltb y x;
  fle := PrimFloat.leb;
  feqb := PrimFloat.eqb;
  isnan := PrimFloat.is_nan;
  isnan_nan := eq_refl;
  fgt_not_fle := ltb_not_leb
|}.

End Binary64.

(** ** The carrier [xreal]: real numbers and one NaN

    Arithmetic is exact; a division by zero, which in IEEE arithmetic gives
    an infinity or a NaN, is NaN here. *)

Module Exact.

Inductive xreal : Type :=
| XNaN
| XR (r : R).

Definition lift2 (op : R -> R -> R) (a b : xreal) : xreal :=
  match a, b with
  | XR x, XR y => XR (op x y)
  | _, _ => XNaN
  end.

Definition xdiv (a b : xreal) : xreal :=
  match a, b with
  | XR x, XR y => if Req_dec_T y 0 then XNaN else XR (x / y)
  | _, _ => XNaN
  end.

Definition xabs (a : xreal) : xreal :=
  match a with
  | XR x => XR (Rabs x)
  | XNaN => XNaN
  end.

Definition xgt (a b : xreal) : bool :=
  match a, b with
  | XR x, XR y => if Rlt_dec y x then true else false
  | _, _ => false
  end.

Definition xle (a b : xreal) : bool :=
  match a, b with
  | XR x, XR y => if Rle_dec x y then true else false
  | _, _ => false
  end.

Definition xeqb (a b : xreal) : bool :=
  match a, b with
  | XR x, XR y => if Req_dec_T x y then true else false
  | _, _ => false
  end.

Definition xisnan (a : xreal) : bool :=
  match a with
  | XNaN => true
  | XR _ => false
  end.

Lemma xgt_not_xle (x y : xreal) : xgt x y = true -> xle x y = false.
Proof.
  destruct x as [|x], y as [|y]; simpl; try discriminate.
  destruct (Rlt_dec y x); [|discriminate].
  intros _. destruct (Rle_dec x y); [lra|reflexivity].
Qed.

#[export] Instance xreal64 : Float64 xreal := {|
  of_int := fun z => XR (IZR z);
  nan := XNaN;
  fadd := lift2 Rplus;
  fsub := lift2 Rminus;
  fmul := lift2 Rmult;
  fdiv := xdiv;
  fabs := xabs;
  fgt := xgt;
  fle := xle;
  feqb := xeqb;
  isnan := xisnan;
  isnan_nan := eq_refl;
  fgt_not_fle := xgt_not_xle
|}.

(** [np.power(x, y)]: NaN for a negative base and an exponent that is not
    an integer; [pow(1, nan) = pow(nan, 0) = 1]. *)
Definition is_integer (y : R) : bool :=
  if Req_dec_T (IZR (Int_part y)) y then true else false.

Definition xpower (a b : xreal) : xreal :=
  match a, b with
  | XR x, XR y =>
      if Rlt_dec 0 x then XR (Rpower x y)
      else if Req_dec_T x 0 then
        if Rlt_dec 0 y then XR 0
        else if Req_dec_T y 0 then XR 1
        else XNaN
      else if is_integer y then XR (powerRZ x (Int_part y))
      else XNaN
  | XR x, XNaN => if Req_dec_T x 1 then XR 1 else XNaN
  | XNaN, XR y => if Req_dec_T y 0 then XR 1 else XNaN
  | XNaN, XNaN => XNaN
  end.

#[export] Instance exact_power : NumPyMath xreal := {|
  np_power := xpower
|}.

(** *** Ordinary least squares, exactly *)

Fixpoint reals (l : list xreal) : option (list R) :=
  match l with
  | [] => Some []
  | XNaN :: _ => None
  | XR x :: tl => option_map (cons x) (reals tl)
  end.

Fixpoint frame_reals (X : DataFrame xreal) : option (list (list R)) :=
  match X with
  | [] => Some []
  | (_, col) :: tl =>
      match reals col, frame_reals tl with
      | Some c, Some r => Some (c :: r)
      | _, _ => None
      end
  end.

Definition sum_R (l : list R) : R := fold_right Rplus 0%R l.

(** The fitted value of row [i]: the sum of [b_j * X_j[i]] over the columns. *)
Definition predict (X : list (list R)) (b : list R) (i : nat) : R :=
  sum_R (map (fun bc => (fst bc * nth i (snd bc) 0)%R) (combine b X)).

(** The sum of squared residuals of the coefficients [b]. *)
Definition sse (X : list (list R)) (y : list R) (b : list R) : R :=
  sum_R (map (fun i => Rsqr (nth i y 0%R - predict X b i))
             (seq 0 (List.length y))).

Definition norm2 (b : list R) : R := sum_R (map Rsqr b).

Definition least_squares (X : list (list R)) (y b : list R) : Prop :=
  List.length b = List.length X /\
  forall b', List.length b' = List.length X -> (sse X y b <= sse X y b')%R.

(** The coefficients statsmodels returns ([pinv(X) y]): the least-squares
    solution, of least norm when several exist. *)
Definition is_ols (X : list (list R)) (y b : list R) : Prop :=
  least_squares X y b /\
  forall b', least_squares X y b' -> (norm2 b <= norm2 b')%R.

Definition ols_params (X : list (list R)) (y : list R) : list R :=
  epsilon (inhabits []) (is_ols X y).

Definition mean_R (l : list R) : R := (sum_R l / INR (List.length l))%R.

Definition centered_tss (y : list R) : R :=
  sum_R (map (fun v => Rsqr (v - mean_R y)) y).

Definition uncentered_tss (y : list R) : R := sum_R (map Rsqr y).

(** [1 - ssr/centered_tss] for a model with a constant, and
    [1 - ssr/uncentered_tss] for one without. *)
Definition ols_rsquared (X : DataFrame xreal) (Xr : list (list R))
  (y : list R) : xreal :=
  let ssr := sse Xr y (ols_params Xr y) in
  let tss :=
    if existsb (fun c => is_nonzero_const (snd c)) X
    then centered_tss y else uncentered_tss y in
  (of_int 1 - XR ssr / XR tss)%py.

(** The inferential statistics of a fit (standard errors, p-values, F
    statistic, information criteria) are not derived here; a fit takes
    them from this record, by column number. *)
Record Inference : Type := {
  inf_bse : list R -> list (list R) -> nat -> xreal;
  inf_pvalue : list R -> list (list R) -> nat -> xreal;
  inf_fvalue : list R -> list (list R) -> xreal;
  inf_f_pvalue : list R -> list (list R) -> xreal;
  inf_aic : list R -> list (list R) -> xreal;
  inf_bic : list R -> list (list R) -> xreal
}.

Definition by_column (X : DataFrame xreal) (f : nat -> xreal)
  : list (string * xreal) :=
  map (fun jc => (fst (snd jc), f (fst jc)))
      (combine (seq 0 (List.length X)) X).

(** statsmodels refuses data with NaN. *)
Definition exact_OLS_fit (inf : Inference) (y : list xreal)
  (X : DataFrame xreal) : exn xreal + RegressionResults xreal :=
  match reals y, frame_reals X with
  | Some yr, Some Xr =>
      ret {| params := by_column X (fun j => XR (nth j (ols_params Xr yr) 0%R));
             bse := by_column X (inf_bse inf yr Xr);
             pvalues := by_column X (inf_pvalue inf yr Xr);
             rsquared := ols_rsquared X Xr yr;
             fvalue := inf_fvalue inf yr Xr;
             f_pvalue := inf_f_pvalue inf yr Xr;
             aic := inf_aic inf yr Xr;
             bic := inf_bic inf yr Xr |}
  | _, _ =>
      raise (LibraryError "MissingDataError"
               [Txt "exog contains inf or nans"])
  end.

Definition exact_ols (inf : Inference) : StatsModels xreal := {|
  OLS_fit := exact_OLS_fit inf
|}.

(** An inference record for examples: every statistic is NaN. *)
Definition no_inference : Inference := {|
  inf_bse := fun _ _ _ => XNaN;
  inf_pvalue := fun _ _ _ => XNaN;
  inf_fvalue := fun _ _ => XNaN;
  inf_f_pvalue := fun _ _ => XNaN;
  inf_aic := fun _ _ => XNaN;
  inf_bic := fun _ _ => XNaN
|}.

(** *** Finite data and the exact estimator *)

Local Open Scope R_scope.

(** Aligned rows without NaN. *)
Definition finite_rows (rr : list (date * (R * R)))
  : list (date * (xreal * xreal)) :=
  map (fun r => (fst r, (XR (fst (snd r)), XR (snd (snd r))))) rr.

(** A series of finite values. *)
Definition finite_series (sr : list (date * R)) : Series xreal :=
  map (fun r => (fst r, XR (snd r))) sr.

(** The estimator with the exact power and the exact fit. *)
Definition capm_exact (inf : Inference) :
  Series xreal -> Series xreal -> xreal -> exn xreal + pydict xreal :=
  @calculate_capm xreal xreal64 exact_power (exact_ols inf).

(** [n] days of the same return [c], and [n] days of returns 0, 1, 2, ... *)
Definition const_series (c : R) (n : nat) : list (date * R) :=
  map (fun i => (Z.of_nat i, c)) (seq 0 n).

Definition ramp (n : nat) : list (date * R) :=
  map (fun i => (Z.of_nat i, INR i)) (seq 0 n).

Definition ramp_rows (c : R) (n : nat) : list (date * (R * R)) :=
  map (fun i => (Z.of_nat i, (c, INR i))) (seq 0 n).

(** [n] consecutive days with the values [f 0, f 1, ...], and the rows
    that pair two such series. *)
Definition days (f : nat -> R) (n : nat) : list (date * R) :=
  map (fun i => (Z.of_nat i, f i)) (seq 0 n).

Definition day_rows (f g : nat -> R) (n : nat) : list (date * (R * R)) :=
  map (fun i => (Z.of_nat i, (f i, g i))) (seq 0 n).

(** The simple returns of real prices after the price [prev], and the last
    of the prices. *)
Fixpoint simple_returns (prev : R) (rest : list (date * R))
  : list (date * R) :=
  match rest with
  | [] => []
  | (d, p) :: tl => (d, p / prev - 1) :: simple_returns p tl
  end.

Fixpoint last_price (prev : R) (rest : list (date * R)) : R :=
  match rest with
  | [] => prev
  | (_, p) :: tl => last_price p tl
  end.

End Exact.

(** ** The other routes and their helpers *)

(** [float(s)] and [repr(s)] on a string, and [ts.strftime('%Y-%m-%d')] on
    a timestamp. *)
Class PyConversions (F : Type) : Type := {
  float_of_str : string -> option F;
  py_repr : string -> string;
  strftime_ymd : date -> string
}.

(** [s.std()] of a series and [np.sqrt]. *)
Class PandasStats (F : Type) : Type := {
  series_std : list F -> F;
  np_sqrt : F -> F
}.

(** ASCII text: [c.isspace()], [s.upper()], [s.strip()], [s.split(',')]. *)
Definition is_space (c : ascii) : bool :=
  let n := nat_of_ascii c in
  ((n =? 32) || ((9 <=? n) && (n <=? 13)) || ((28 <=? n) && (n <=? 31)))%nat.

Definition upper_ascii (c : ascii) : ascii :=
  let n := nat_of_ascii c in
  if ((97 <=? n) && (n <=? 122))%nat then ascii_of_nat (n - 32) else c.

Fixpoint upper (s : string) : string :=
  match s with
  | EmptyString => EmptyString
  | String c s' => String (upper_ascii c) (upper s')
  end.

Fixpoint lstrip (s : string) : string :=
  match s with
  | EmptyString => EmptyString
  | String c s' => if is_space c then lstrip s' else s
  end.

Fixpoint rstrip (s : string) : string :=
  match s with
  | EmptyString => EmptyString
  | String c s' =>
      match rstrip s' with
      | EmptyString => if is_space c then EmptyString else String c EmptyString
      | r => String c r
      end
  end.

Definition strip (s : string) : string := rstrip (lstrip s).

Fixpoint split_comma (s : string) : list string :=
  match s with
  | EmptyString => [EmptyString]
  | String c s' =>
      if Ascii.eqb c ","%char then EmptyString :: split_comma s'
      else match split_comma s' with
           | h :: t => String c h :: t
           | [] => [String c EmptyString]
           end
  end.

Definition nonblank (s : string) : bool :=
  match strip s with
  | EmptyString => false
  | _ => true
  end.

(** A string without a comma. *)
Fixpoint comma_free (s : string) : bool :=
  match s with
  | EmptyString => true
  | String c s' => negb (Ascii.eqb c ","%char) && comma_free s'
  end.

(** [[t.strip().upper() for t in tickers.split(',') if t.strip()]] *)
Definition parse_tickers (tickers : string) : list string :=
  map (fun t => upper (strip t)) (filter nonblank (split_comma tickers)).

Section Requests.
Context {F : Type} `{Float64 F} `{NumPyMath F} `{StatsModels F} `{YFinance F}
        `{NumPyRandom F} `{PandasResample F} `{PyRuntime} `{PyConversions F}
        `{PandasStats F}.

(** [GET /api/assets/{ticker}], on a cache miss. *)
Definition get_asset_data (ticker period : string) : exn F + pydict F :=
  try_except
    (returns <- get_returns ticker period ;;
     ret [ ("ticker", PyStr ticker);
           ("period", PyStr period);
           ("returns", PyList (map (@PyFloat F) (values returns)));
           ("dates",
              PyList (map (fun d => PyStr (strftime_ymd d)) (index returns)));
           ("total_return",
              PyFloat (np_prod (map (fun x => of_int 1 + x) (values returns))
                       - of_int 1)%py);
           ("volatility",
              PyFloat (series_std (values returns)
                       * np_sqrt (of_int 252))%py) ])
    (fun e => HTTPException 400 (str_exn e)).

(** [[float(w.strip()) for w in weights.split(',') if w.strip()]]: the
    first piece that is no number raises [ValueError]. *)
Fixpoint parse_floats (pieces : list string) : exn F + list F :=
  match pieces with
  | [] => ret []
  | w :: rest =>
      match float_of_str (strip w) with
      | None =>
          raise (ValueError
                   [Txt "could not convert string to float: ";
                    Txt (py_repr (strip w))])
      | Some x => l <- parse_floats rest ;; ret (x :: l)
      end
  end.

Definition parse_weights (weights : string) : exn F + list F :=
  parse_floats (filter nonblank (split_comma weights)).

(** [GET /api/portfolio/capm] from its two query strings. *)
Definition portfolio_capm_request (tickers weights : string)
  : exn F + pydict F :=
  let ticker_list := parse_tickers tickers in
  match parse_weights weights with
  | inl e =>
      raise (HTTPException 500
               (Txt "Portfolio analysis failed: " :: str_exn e))
  | inr weight_list => portfolio_capm ticker_list weight_list
  end.

(** [GET /api/multifactor], on a cache miss, when the clock reads [now] and
    the generator is in state [g]. *)
Definition api_multifactor (now : Z) (g : rng_state) (ticker period : string)
  : (exn F + pydict F) * rng_state :=
  match get_returns ticker period with
  | inl e => (raise (HTTPException 400 (str_exn e)), g)
  | inr asset_returns =>
      let '(factors, g1) := get_fama_french_factors now ticker in
      let '(factor_result, g2) :=
        calculate_factor_exposure g1 asset_returns factors in
      (ret (dict_update
              (dict_update [("ticker", PyStr ticker); ("period", PyStr period)]
                           factor_result)
              [("factor_explanations", PyDict
                 [("MKT", PyStr "Market risk premium exposure");
                  ("SMB", PyStr "Small Minus Big - Size factor exposure");
                  ("HML", PyStr "High Minus Low - Value factor exposure")])]),
       g2)
  end.

(** [GET /api/factors], on a cache miss. *)
Definition api_factors (now : Z) : pydict F * rng_state :=
  let '(factors, g) := get_fama_french_factors now "SPY" in
  ([ ("factors", PyDict
        [ ("MKT_RF", PyList (map (fun r => PyFloat (MKT_RF (snd r))) factors));
          ("SMB", PyList (map (fun r => PyFloat (SMB (snd r))) factors));
          ("HML", PyList (map (fun r => PyFloat (HML (snd r))) factors));
          ("RF", PyList (map (fun r => PyFloat (RF (snd r))) factors)) ]);
     ("dates", PyList (map (fun r => PyStr (strftime_ymd (fst r))) factors)) ],
   g).

(** [get_change] of [get_live_market_data], on the column of closing
    prices: the last price and its change in percent. *)
Definition get_change (closes : list F) : F * F :=
  let fallback :=
    match rev closes with
    | current :: _ => (current, of_int 0)
    | [] => (of_int 0, of_int 0)
    end in
  match rev closes with
  | current :: previous :: _ =>
      if (previous > of_int 0)%py && negb (isnan previous)
         && negb (isnan current)
      then (current, ((current - previous) / previous * of_int 100)%py)
      else fallback
  | _ => fallback
  end.

End Requests.

(** ** Instances for examples *)

(** A generator without noise: a normal draw is its mean, a uniform draw
    is zero. *)
Definition quiet_random {F} `{Float64 F} : NumPyRandom F := {|
  rng_state := unit;
  seed := fun _ => tt;
  normal := fun m _ g => (m, g);
  normal_n := fun m _ n g => (repeat m n, g);
  random := fun g => (of_int 0, g);
  normal_n_length := fun m _ n _ => repeat_length m n
|}.

(** Resampling of data that already sits on consecutive business days. *)
Definition already_business {F} : PandasResample F := {|
  asfreq_B := fun A s => ret s
|}.

(** A provider that knows one closing price for every ticker. *)
Definition one_price_feed {F} `{Float64 F} : YFinance F := {|
  history := fun _ _ => ret [(0%Z, of_int 100)]
|}.

Module Fixtures.
Import Binary64 Exact.

(** A provider with three closing prices for every ticker. *)
Definition three_price_feed : YFinance float := {|
  history := fun _ _ =>
    ret [(0%Z, of_int 100); (1%Z, of_int 110); (2%Z, of_int 99)]
|}.

(** Thirty business days on which the asset has no value, and factors
    that are zero. *)
Definition missing_asset : Series xreal :=
  map (fun i => (Z.of_nat i, XNaN)) (seq 0 30).

Definition zero_factors : list (date * FactorRow xreal) :=
  map (fun i => (Z.of_nat i,
                 {| MKT_RF := XR 0; SMB := XR 0; HML := XR 0; RF := XR 0 |}))
      (seq 0 30).

Definition quiet : NumPyRandom xreal := @quiet_random xreal xreal64.
Definition start : @rng_state xreal quiet := tt.

Definition exposure_example :=
  @calculate_factor_exposure xreal xreal64 (exact_ols no_inference)
    quiet already_business.

(** A process whose string hash is the polynomial hash in base 31. *)
Definition poly_hash : PyRuntime := {|
  py_hash := fun s =>
    fold_left (fun h c => (h * 31 + Z.of_nat (nat_of_ascii c))%Z)
              (list_ascii_of_string s) 0%Z
|}.

(** A provider with 32 days of the closing price 1 for every ticker. *)
Definition flat_feed : YFinance xreal := {|
  history := fun _ _ => ret (map (fun i => (Z.of_nat i, XR 1)) (seq 0 32))
|}.

(** A provider that is down. *)
Definition down_feed {F} : YFinance F := {|
  history := fun _ _ =>
    raise (LibraryError "ConnectionError" [Txt "provider unreachable"])
|}.

(** A provider whose closing price goes up by one a day: 32 prices
    1, 2, ..., 32 for every ticker, the first on day -1.  Day [j] then has
    the return [rise j]. *)
Definition rising_feed : YFinance xreal := {|
  history := fun _ _ =>
    ret (map (fun i => ((Z.of_nat i - 1)%Z, XR (INR (S i)))) (seq 0 32))
|}.

Definition rise (j : nat) : R := (INR (S (S j)) / INR (S j) - 1)%R.

(** The three prices of [three_price_feed] as exact numbers, and the
    sample standard deviation and the square root of series without NaN. *)
Definition three_prices : YFinance xreal := {|
  history := fun _ _ =>
    ret (finite_series [(0%Z, 100%R); (1%Z, 110%R); (2%Z, 99%R)])
|}.

Definition exact_stats : PandasStats xreal := {|
  series_std := fun l =>
    match reals l with
    | Some lr =>
        if (List.length lr <? 2)%nat then XNaN
        else XR (sqrt (centered_tss lr / (INR (List.length lr) - 1)))
    | None => XNaN
    end;
  np_sqrt := fun x =>
    match x with
    | XR r => if Rle_dec 0 r then XR (sqrt r) else XNaN
    | XNaN => XNaN
    end
|}.

(** Two assets that share the second of two days, held half and half. *)
Definition two_assets : list (string * Series float) :=
  [ ("AAPL", [(0%Z, decimal 2 100); (1%Z, decimal 1 100)]);
    ("MSFT", [(1%Z, decimal 3 100)]) ].

Definition half_half : list (string * float) :=
  [ ("AAPL", of_int 50); ("MSFT", of_int 50) ].

(** [float] restricted to unsigned decimal integers. *)
Fixpoint digits_value (acc : Z) (s : string) : option Z :=
  match s with
  | EmptyString => Some acc
  | String c s' =>
      let n := nat_of_ascii c in
      if ((48 <=? n) && (n <=? 57))%nat
      then digits_value (acc * 10 + Z.of_nat (n - 48)) s'
      else None
  end.

(** Conversions for examples: [float] of digits, [repr] of text without
    quotes, backslashes or control characters, and [strftime] of timestamps
    within the first day of the epoch. *)
Definition digits_only {F} `{Float64 F} : PyConversions F := {|
  float_of_str := fun s =>
    match s with
    | EmptyString => None
    | _ => option_map of_int (digits_value 0 s)
    end;
  py_repr := fun s => ("'" ++ s ++ "'")%string;
  strftime_ymd := fun _ => "1970-01-01"
|}.

End Fixtures.

(** * Properties *)

(** ** ReturnSeries builder *)

Section DataFetcherFacts.
Context {F : Type} `{Float64 F} `{YFinance F}.

Lemma dropna_pct_change (d0 : date) (p0 : F) (rest : Series F) :
  dropna (pct_change ((d0, p0) :: rest)) = dropna (pct_changes p0 rest).
Proof.
  unfold dropna, pct_change. simpl. rewrite isnan_nan. reflexivity.
Qed.

Lemma pct_changes_index (p0 : F) (rest : Series F) :
  index (pct_changes p0 rest) = index rest.
Proof.
  revert p0. induction rest as [|[d p] tl IH]; intros p0; simpl.
  - reflexivity.
  - unfold index in *. simpl. now rewrite IH.
Qed.

(** C8, as the code has it: an empty history fails (the [ValueError] is
    re-raised as [HTTPException] 400); any other history, also one of a
    single price, yields the period-over-period changes [p_i / p_(i-1) - 1]
    of the rows after the first, those that are NaN dropped. *)
Theorem get_returns_spec (ticker period : string) (hist : Series F) :
  history ticker period = ret hist ->
  get_returns ticker period =
    match hist with
    | [] =>
        raise (HTTPException 400
          [Txt "Error fetching data for "; Txt ticker; Txt ": ";
           Txt "No data found for "; Txt ticker])
    | (d0, p0) :: rest => ret (dropna (pct_changes p0 rest))
    end.
Proof.
  intros Hh. unfold get_returns, returns_of_history. rewrite Hh.
  destruct hist as [|[d0 p0] rest]; simpl.
  - reflexivity.
  - rewrite isnan_nan. reflexivity.
Qed.

End DataFetcherFacts.

(** ** CAPM estimator *)

Section CAPMFacts.
Context {F : Type} `{Float64 F} `{NumPyMath F} `{StatsModels F}.

Lemma calculate_capm_short (a m : Series F) (rf : F) :
  (List.length (aligned_rows a m) < 10)%nat ->
  calculate_capm a m rf =
    raise (HTTPException 500
             [Txt "CAPM calculation failed: "; Txt (short_message a m)]).
Proof.
  unfold aligned_rows, calculate_capm, calculate_capm_body, short_message.
  intros Hlen.
  destruct (concat_inner a m) as [|r rows] eqn:E.
  - reflexivity.
  - apply Nat.ltb_lt in Hlen. rewrite Hlen. reflexivity.
Qed.

(** What a successful call has gone through. *)
Lemma calculate_capm_inr (a m : Series F) (rf : F) (d : pydict F) :
  calculate_capm a m rf = ret d ->
  let rows := aligned_rows a m in
  let asset := map (fun r => fst (snd r)) rows in
  let market := map (fun r => snd (snd r)) rows in
  let excess_asset := map (fun x => x - rf / of_int 252)%py asset in
  let excess_market := map (fun x => x - rf / of_int 252)%py market in
  (10 <= List.length rows)%nat /\
  exists model beta const p_value std_error,
    OLS_fit excess_asset (add_constant [("market", excess_market)])
      = ret model /\
    assoc "market" (params model) = Some beta /\
    assoc "const" (params model) = Some const /\
    assoc "market" (pvalues model) = Some p_value /\
    assoc "market" (bse model) = Some std_error /\
    d = capm_result beta (const * of_int 252)%py (rsquared model)
          (rf + beta * (mean excess_market * of_int 252))%py
          (np_power
             (of_int 1
              + (np_prod (map (fun x => of_int 1 + x) asset) - of_int 1))
             (of_int 252 / of_int (Z.of_nat (List.length rows)))
           - of_int 1)%py
          rf (mean excess_market * of_int 252)%py p_value std_error
          (List.length rows).
Proof.
  unfold aligned_rows, calculate_capm, calculate_capm_body, try_except.
  destruct (concat_inner a m) as [|r rows0] eqn:E; [discriminate|].
  destruct (List.length (dropna2 (r :: rows0)) <? 10)%nat eqn:L;
    [discriminate|].
  apply Nat.ltb_ge in L.
  destruct (OLS_fit _ _) as [e|model] eqn:Hfit; [discriminate|].
  unfold bind, getitem.
  destruct (assoc "market" (params model)) as [beta|] eqn:Hb; [|discriminate].
  destruct (assoc "const" (params model)) as [c|] eqn:Hc; [|discriminate].
  destruct (assoc "market" (pvalues model)) as [p|] eqn:Hp; [|discriminate].
  destruct (assoc "market" (bse model)) as [se|] eqn:Hs; [|discriminate].
  intros Hd. injection Hd as <-. split; [exact L|].
  exists model, beta, c, p, se. repeat split; assumption.
Qed.


(** The formula of the annualized actual return (lines 88-90). *)
Lemma actual_return_formula (a m : Series F) (rf : F) (d : pydict F) :
  calculate_capm a m rf = ret d ->
  let asset := map (fun r => fst (snd r)) (aligned_rows a m) in
  let total_return :=
    (np_prod (map (fun x => of_int 1 + x) asset) - of_int 1)%py in
  assoc "actual_return" d =
    Some (PyFloat
      (np_power (of_int 1 + total_return)
         (of_int 252 / of_int (Z.of_nat (List.length (aligned_rows a m))))
       - of_int 1)%py).
Proof.
  intros Hd. apply calculate_capm_inr in Hd.
  destruct Hd as [_ (model & beta & c & p & se & _ & _ & _ & _ & _ & ->)].
  reflexivity.
Qed.

End CAPMFacts.

Section RouteFacts.
Context {F : Type} `{Float64 F} `{NumPyMath F} `{StatsModels F} `{YFinance F}.

(** C2, as the code has it: with fewer than 10 aligned rows
    [calculate_capm] returns no result; the [ValueError] of the check is
    re-raised as [HTTPException] with status 500.  [GET /api/capm]
    re-raises that one with status 400; [GET /api/portfolio/capm] passes it
    on as it is. *)
Theorem capm_insufficient_data_fails (a m : Series F) (rf : F) :
  (List.length (aligned_rows a m) < 10)%nat ->
  calculate_capm a m rf =
    raise (HTTPException 500
             [Txt "CAPM calculation failed: "; Txt (short_message a m)]) /\
  (forall d, calculate_capm a m rf <> ret d) /\
  (forall ticker period,
     get_returns ticker period = ret a ->
     get_returns "^GSPC" period = ret m ->
     api_capm ticker period =
       raise (HTTPException 400
                [IntV 500; Txt ": "; Txt "CAPM calculation failed: ";
                 Txt (short_message a m)])) /\
  (forall ticker_list weight_list total all_returns p market_returns,
     validate_portfolio ticker_list weight_list = ret total ->
     fetch_all ticker_list [] = ret all_returns ->
     weighted_sum all_returns (combine ticker_list weight_list) None
       = ret (Some p) ->
     (30 <= List.length p)%nat ->
     get_returns "^GSPC" "2y" = ret market_returns ->
     align_inner p market_returns = (a, m) ->
     (30 <= List.length a)%nat ->
     portfolio_capm ticker_list weight_list =
       raise (HTTPException 500
                [Txt "CAPM calculation failed: "; Txt (short_message a m)])).
Proof.
  intros Hlen. split; [|split; [|split]].
  - now apply calculate_capm_short.
  - intros d. rewrite (calculate_capm_short a m rf Hlen). discriminate.
  - intros ticker period Ha Hm. unfold api_capm.
    rewrite Ha, Hm. simpl.
    rewrite (calculate_capm_short a m _ Hlen). reflexivity.
  - intros tl wl total all p market Hv Hf Hw Hp Hm Hal Ha.
    unfold portfolio_capm. rewrite Hv. cbn [bind]. rewrite Hf. cbn [bind].
    rewrite Hw. cbn [bind].
    apply Nat.ltb_ge in Hp. rewrite Hp, Hm. cbn [bind]. rewrite Hal.
    apply Nat.ltb_ge in Ha. rewrite Ha.
    rewrite (calculate_capm_short a m _ Hlen). reflexivity.
Qed.

End RouteFacts.

(** ** Portfolio aggregator *)

Section PortfolioFacts.
Context {F : Type} `{Float64 F}.

(** The validation passes exactly when the counts match, the list is not
    empty and the test [abs(total - 100.0) > 0.01] is false. *)
Lemma validate_portfolio_inr (tl : list string) (wl : list F) (t : F) :
  validate_portfolio tl wl = ret t <->
  List.length tl = List.length wl /\ tl <> [] /\ t = py_sum wl /\
  (fabs (py_sum wl - of_int 100) > decimal 1 100)%py = false.
Proof.
  unfold validate_portfolio.
  destruct (List.length tl =? List.length wl)%nat eqn:E; simpl.
  - apply Nat.eqb_eq in E.
    destruct tl as [|t0 tl']; simpl.
    + split; [discriminate|]. intros (_ & Hne & _). now elim Hne.
    + destruct (fabs (py_sum wl - of_int 100) > decimal 1 100)%py eqn:G.
      * split; [discriminate|]. intros (_ & _ & _ & Hf). discriminate.
      * split.
        -- intros Ht. injection Ht as <-. repeat split; try assumption.
           discriminate.
        -- intros (_ & _ & -> & _). reflexivity.
  - apply Nat.eqb_neq in E. split; [discriminate|].
    intros (Hl & _). now elim E.
Qed.

(** Every rejection of the validation is an [HTTPException] 400. *)
Lemma validate_portfolio_inl (tl : list string) (wl : list F) (e : exn F) :
  validate_portfolio tl wl = raise e -> status_of e = Some 400%Z.
Proof.
  unfold validate_portfolio.
  destruct (negb _); [intros Hx; injection Hx as <-; reflexivity|].
  destruct (_ =? 0)%nat; [intros Hx; injection Hx as <-; reflexivity|].
  destruct (fgt _ _); [intros Hx; injection Hx as <-; reflexivity|].
  discriminate.
Qed.

Lemma loc_scale (s : Series F) (k : F) (d : date) :
  loc d (scale s k) = option_map (fun x => (x * k)%py) (loc d s).
Proof.
  induction s as [|[d' v] s IH]; simpl; [reflexivity|].
  destruct (Z.eqb d d'); [reflexivity|exact IH].
Qed.

Lemma loc_add_aligned (p q : Series F) (d : date) :
  loc d (add_aligned p q) =
    match loc d p, loc d q with
    | Some x, Some y => Some (x + y)%py
    | _, _ => None
    end.
Proof.
  unfold add_aligned.
  induction p as [|[d' x] p IH]; simpl; [reflexivity|].
  destruct (Z.eqb d d') eqn:E.
  - apply Z.eqb_eq in E. subst d'.
    destruct (loc d q) as [y|] eqn:Q; simpl.
    + rewrite Z.eqb_refl. reflexivity.
    + rewrite IH. destruct (loc d p); try rewrite Q; reflexivity.
  - destruct (loc d' q) as [y|]; simpl; [rewrite E|]; exact IH.
Qed.

Lemma weighted_sum_loc (all_returns : list (string * Series F))
  (pairs : list (string * F)) :
  forall p0 p,
    weighted_sum all_returns pairs (Some p0) = ret (Some p) ->
    forall d, loc d p = fold_left (add_ticker all_returns d) pairs (loc d p0).
Proof.
  induction pairs as [|[t w] rest IH]; intros p0 p Hs d; simpl in *.
  - injection Hs as <-. reflexivity.
  - unfold getitem in Hs.
    destruct (assoc t all_returns) as [r|] eqn:A; simpl in Hs; [|discriminate].
    rewrite (IH _ _ Hs d). f_equal.
    rewrite loc_add_aligned, loc_scale. unfold add_ticker. simpl. rewrite A.
    destruct (loc d p0); [|reflexivity].
    destruct (loc d r); reflexivity.
Qed.


End PortfolioFacts.

(** ** Multi-factor estimator *)

Section FactorExposureFacts.
Context {F : Type} `{Float64 F} `{StatsModels F} `{NumPyRandom F}
        `{PandasResample F}.

Ltac draw :=
  repeat match goal with
         | |- context [normal ?m ?s ?g] => destruct (normal m s g)
         | |- context [random ?g] => destruct (random g)
         end.

Lemma demo_small_keys (g : rng_state) (n : nat) :
  all_keys (PyDict (fst (demo_small g n))) = fitted_keys.
Proof. unfold demo_small. draw. reflexivity. Qed.

Lemma demo_error_keys (g : rng_state) :
  all_keys (PyDict (fst (demo_error g))) = fitted_keys.
Proof. unfold demo_error. draw. reflexivity. Qed.

Lemma fitted_result_keys (model : RegressionResults F) (n : nat) (d : pydict F) :
  fitted_result model n = ret d -> all_keys (PyDict d) = fitted_keys.
Proof.
  unfold fitted_result, bind, getitem.
  repeat match goal with
         | |- context [assoc ?k ?s] => destruct (assoc k s); [|discriminate]
         end.
  intros Hd. injection Hd as <-. reflexivity.
Qed.

Lemma demo_small_n_observations (g : rng_state) (n : nat) :
  assoc "n_observations" (fst (demo_small g n)) =
    Some (PyInt (if (0 <? n)%nat then Z.of_nat n else 100)).
Proof. unfold demo_small. draw. reflexivity. Qed.

Lemma demo_error_n_observations (g : rng_state) :
  assoc "n_observations" (fst (demo_error g)) = Some (@PyInt F 100).
Proof. unfold demo_error. draw. reflexivity. Qed.

Lemma body_small_overlap (g : rng_state) (a : Series F)
  (f : list (date * FactorRow F)) (n : nat) :
  overlap a f = ret n -> (n < 30)%nat ->
  factor_exposure_body g a f = ret (demo_small g n).
Proof.
  unfold overlap, factor_exposure_body, bind.
  destruct (asfreq_B a) as [e|ab]; [discriminate|].
  destruct (asfreq_B f) as [e|fb]; [discriminate|].
  intros Hn Hlt. injection Hn as <-.
  apply Nat.ltb_lt in Hlt. rewrite Hlt. reflexivity.
Qed.

Lemma body_keys (g : rng_state) (a : Series F)
  (f : list (date * FactorRow F)) (r : pydict F * rng_state) :
  factor_exposure_body g a f = ret r -> all_keys (PyDict (fst r)) = fitted_keys.
Proof.
  unfold factor_exposure_body, bind.
  destruct (asfreq_B a) as [e|ab]; [discriminate|].
  destruct (asfreq_B f) as [e|fb]; [discriminate|].
  destruct (_ <? 30)%nat.
  - intros Hr. injection Hr as <-. apply demo_small_keys.
  - destruct (_ <? 30)%nat; [discriminate|].
    destruct (OLS_fit _ _) as [e|model]; [discriminate|].
    destruct (fitted_result model _) as [e|d] eqn:Hd; [discriminate|].
    intros Hr. injection Hr as <-. simpl fst.
    exact (fitted_result_keys _ _ Hd).
Qed.

Lemma result_keys (g : rng_state) (a : Series F)
  (f : list (date * FactorRow F)) :
  all_keys (PyDict (fst (calculate_factor_exposure g a f))) = fitted_keys.
Proof.
  unfold calculate_factor_exposure.
  destruct (factor_exposure_body g a f) as [e|r] eqn:B.
  - apply demo_error_keys.
  - exact (body_keys _ _ _ B).
Qed.

(** C9: when the [try] block raises, whatever the overlap of the two
    series, the dictionary returned reports [n_observations = 100]. *)
Theorem raised_reports_100 (g : rng_state) (a : Series F)
  (f : list (date * FactorRow F)) (e : exn F) :
  factor_exposure_body g a f = raise e ->
  calculate_factor_exposure g a f = demo_error g /\
  assoc "n_observations" (fst (calculate_factor_exposure g a f))
    = Some (PyInt 100).
Proof.
  intros B. unfold calculate_factor_exposure. rewrite B.
  split; [reflexivity|apply demo_error_n_observations].
Qed.

(** C1, as the code has it: with fewer than 30 common business days, and
    likewise when the [try] block raises, the estimator returns a demo
    dictionary instead of failing; in the first case [n_observations] is
    the number of common days, or 100 when there is none.  The dictionary
    has the keys of a fitted result and no other: nothing in it marks it as
    a placeholder. *)
Theorem placeholder_instead_of_failure (g : rng_state) (a : Series F)
  (f : list (date * FactorRow F)) :
  (forall n, overlap a f = ret n -> (n < 30)%nat ->
     calculate_factor_exposure g a f = demo_small g n /\
     assoc "n_observations" (fst (calculate_factor_exposure g a f))
       = Some (PyInt (if (0 <? n)%nat then Z.of_nat n else 100))) /\
  (forall e, factor_exposure_body g a f = raise e ->
     calculate_factor_exposure g a f = demo_error g) /\
  all_keys (PyDict (fst (calculate_factor_exposure g a f))) = fitted_keys /\
  flagged (fst (calculate_factor_exposure g a f)) = false.
Proof.
  split; [|split; [|split]].
  - intros n Hn Hlt. unfold calculate_factor_exposure.
    rewrite (body_small_overlap g _ _ Hn Hlt).
    split; [reflexivity|apply demo_small_n_observations].
  - intros e B. unfold calculate_factor_exposure. now rewrite B.
  - apply result_keys.
  - unfold flagged. rewrite result_keys. reflexivity.
Qed.

End FactorExposureFacts.

(** ** Factor synthesizer *)

Lemma zs_length (n : nat) : String.length (zs n) = n.
Proof. induction n; simpl; congruence. Qed.

Lemma zs_inj (i j : nat) : zs i = zs j -> i = j.
Proof. intros E. rewrite <- (zs_length i), <- (zs_length j). now rewrite E. Qed.

Lemma contains_zs (c : ascii) (p : string) (n : nat) :
  c <> "z"%char -> contains (String c p) (lower (zs n)) = false.
Proof.
  intros Hc. induction n as [|n IH]; simpl.
  - reflexivity.
  - rewrite IH. change (lower_ascii "Z") with "z"%char.
    destruct (ascii_dec c "z"); [contradiction|reflexivity].
Qed.

(** Among [n + 1] numbers below [n] two are equal. *)
Lemma NoDup_map_seq (f : nat -> nat) (m a : nat) :
  (forall i j, a <= i < j -> j < a + m -> f i <> f j) ->
  NoDup (map f (seq a m)).
Proof.
  revert a. induction m as [|m IH]; intros a Hinj; simpl.
  - constructor.
  - constructor.
    + intros Hin. apply in_map_iff in Hin. destruct Hin as (j & Hj & Hin).
      apply in_seq in Hin. apply (Hinj a j); [lia|lia|congruence].
    + apply IH. intros i j Hij Hj. apply Hinj; lia.
Qed.

Lemma pigeonhole (f : nat -> nat) (n : nat) :
  (forall i, i <= n -> f i < n) ->
  exists i j, i < j <= n /\ f i = f j.
Proof.
  intros Hf. apply NNPP. intros Hno.
  assert (Hnd : NoDup (map f (seq 0 (S n)))).
  { apply NoDup_map_seq. intros i j Hij Hj Heq. apply Hno.
    exists i, j. split; [lia|exact Heq]. }
  assert (Hinc : incl (map f (seq 0 (S n))) (seq 0 n)).
  { intros x Hx. apply in_map_iff in Hx. destruct Hx as (i & <- & Hi).
    apply in_seq in Hi. apply in_seq. specialize (Hf i). lia. }
  pose proof (NoDup_incl_length Hnd Hinc) as Hlen.
  rewrite length_map, !length_seq in Hlen. lia.
Qed.

Lemma map_snd_combine {A B} (l : list A) (l' : list B) :
  List.length l = List.length l' -> map snd (combine l l') = l'.
Proof.
  revert l'. induction l as [|x l IH]; intros [|y l'] E; simpl in *;
    try discriminate; [reflexivity|].
  f_equal. apply IH. congruence.
Qed.

Lemma map_fst_combine {A B} (l : list A) (l' : list B) :
  List.length l = List.length l' -> map fst (combine l l') = l.
Proof.
  revert l'. induction l as [|x l IH]; intros [|y l'] E; simpl in *;
    try discriminate; [reflexivity|].
  f_equal. apply IH. congruence.
Qed.

Section SynthesizerFacts.
Context {F : Type} `{Float64 F} `{NumPyRandom F} `{PyRuntime}.

Lemma profile_of_zs (n : nat) :
  profile_of (zs n) =
    {| market_vol := decimal 15 1000; base_mkt := decimal 3 10000;
       hml_trend := of_int 0; smb_trend := decimal (-1) 10000 |}.
Proof.
  unfold profile_of, tech_tickers, value_tickers, small_cap_tickers. simpl.
  rewrite !contains_zs by (intros E; discriminate E). reflexivity.
Qed.

Lemma cumsum_from_length (acc : F) (l : list F) :
  List.length (cumsum_from acc l) = List.length l.
Proof. revert acc. induction l; intros; simpl; [reflexivity|now rewrite IHl]. Qed.

Lemma cumsum_length (l : list F) : List.length (cumsum l) = List.length l.
Proof. destruct l; simpl; [reflexivity|now rewrite cumsum_from_length]. Qed.

Lemma factor_rows_length (n : nat) (a b c d : list F) :
  List.length a = n -> List.length b = n -> List.length c = n ->
  List.length d = n -> List.length (factor_rows a b c d) = n.
Proof.
  revert a b c d. induction n as [|n IH]; intros [|x a] [|y b] [|z c] [|w d];
    simpl; try discriminate; try reflexivity.
  intros Ha Hb Hc Hd. f_equal. apply IH; congruence.
Qed.

Lemma factor_columns_length (ticker : string) (n : nat) :
  List.length (fst (factor_columns ticker n)) = n.
Proof.
  unfold factor_columns.
  set (g0 := seed _). set (p := profile_of ticker).
  pose proof (normal_n_length (base_mkt p) (market_vol p) n g0) as L1.
  destruct (normal_n (base_mkt p) (market_vol p) n g0) as [mkt g1].
  pose proof (normal_n_length (smb_trend p) (decimal 8 1000) n g1) as L2.
  destruct (normal_n (smb_trend p) (decimal 8 1000) n g1) as [smb g2].
  pose proof (normal_n_length (hml_trend p) (decimal 7 1000) n g2) as L3.
  destruct (normal_n (hml_trend p) (decimal 7 1000) n g2) as [hml g3].
  pose proof (normal_n_length (decimal 1 10000) (decimal 3 10000) n g3) as L4.
  destruct (normal_n (decimal 1 10000) (decimal 3 10000) n g3) as [rf g4].
  simpl in *. apply factor_rows_length; now rewrite cumsum_length.
Qed.

Lemma date_range_2y_length (now : Z) : List.length (date_range_2y now) = 731.
Proof. unfold date_range_2y. now rewrite length_map, length_seq. Qed.

Lemma get_fama_french_factors_parts (now : Z) (ticker : string) :
  index (fst (get_fama_french_factors now ticker)) = date_range_2y now /\
  values (fst (get_fama_french_factors now ticker))
    = fst (factor_columns ticker 731) /\
  snd (get_fama_french_factors now ticker) = snd (factor_columns ticker 731).
Proof.
  unfold get_fama_french_factors, index, values.
  rewrite date_range_2y_length.
  pose proof (factor_columns_length ticker 731) as L.
  destruct (factor_columns ticker 731) as [rows g]. cbn [fst snd] in *.
  rewrite map_fst_combine, map_snd_combine
    by now rewrite date_range_2y_length.
  repeat split.
Qed.

(** Tickers with the same seed and the same profile get the same frame. *)
Lemma same_seed_same_factors (now : Z) (t1 t2 : string) :
  (py_hash t1 mod 10000 = py_hash t2 mod 10000)%Z ->
  profile_of t1 = profile_of t2 ->
  get_fama_french_factors now t1 = get_fama_french_factors now t2.
Proof.
  intros Hs Hp. unfold get_fama_french_factors, factor_columns.
  now rewrite Hs, Hp.
Qed.

Lemma colliding_tickers (now : Z) :
  exists t1 t2 : string,
    t1 <> t2 /\
    get_fama_french_factors now t1 = get_fama_french_factors now t2.
Proof.
  destruct (@pigeonhole (fun i => Z.to_nat (py_hash (zs i) mod 10000))
              (Z.to_nat 10000))
    as (i & j & Hij & Heq).
  { intros i _.
    pose proof (Z.mod_pos_bound (py_hash (zs i)) 10000 ltac:(lia)). lia. }
  exists (zs i), (zs j). split.
  - intros E. apply zs_inj in E. lia.
  - apply same_seed_same_factors.
    + pose proof (Z.mod_pos_bound (py_hash (zs i)) 10000 ltac:(lia)).
      pose proof (Z.mod_pos_bound (py_hash (zs j)) 10000 ltac:(lia)).
      apply Z2Nat.inj in Heq; lia.
    + now rewrite !profile_of_zs.
Qed.

Lemma date_range_2y_inj (now1 now2 : Z) :
  date_range_2y now1 = date_range_2y now2 -> now1 = now2.
Proof.
  unfold date_range_2y. intros E.
  apply (f_equal (fun l => hd 0%Z l)) in E.
  change (seq 0 731) with (0 :: seq 1 730) in E.
  cbn [map hd] in E. lia.
Qed.

(** C4, as the code has it: the four factor columns and the state the
    generator is left in depend on the ticker alone, so two calls for one
    ticker give the same values; the index is the 731 days that end at the
    clock reading of the call; and distinct tickers need not differ: in
    every process two distinct tickers get the same frame. *)
Theorem synthesizer_determinism (ticker : string) (now1 now2 : Z) :
  values (fst (get_fama_french_factors now1 ticker))
    = values (fst (get_fama_french_factors now2 ticker)) /\
  snd (get_fama_french_factors now1 ticker)
    = snd (get_fama_french_factors now2 ticker) /\
  index (fst (get_fama_french_factors now1 ticker)) = date_range_2y now1 /\
  exists t1 t2 : string,
    t1 <> t2 /\
    get_fama_french_factors now1 t1 = get_fama_french_factors now1 t2.
Proof.
  destruct (get_fama_french_factors_parts now1 ticker) as (I1 & V1 & G1).
  destruct (get_fama_french_factors_parts now2 ticker) as (I2 & V2 & G2).
  repeat split; try congruence. apply colliding_tickers.
Qed.

End SynthesizerFacts.

(** In every process a second call one day later returns another frame
    for the same ticker, and two distinct tickers return the same frame. *)
Lemma clock_and_collisions :
  forall (F : Type) (fl : Float64 F) (rnd : NumPyRandom F) (py : PyRuntime),
    fst (get_fama_french_factors 0 "AAPL")
      <> fst (get_fama_french_factors day_us "AAPL") /\
    exists t1 t2 : string,
      t1 <> t2 /\
      get_fama_french_factors 0 t1 = get_fama_french_factors 0 t2.
Proof.
  intros F fl rnd py. split.
  - intros E.
    destruct (get_fama_french_factors_parts 0 "AAPL") as (I1 & _).
    destruct (get_fama_french_factors_parts day_us "AAPL") as (I2 & _).
    rewrite E, I2 in I1. apply date_range_2y_inj in I1. discriminate I1.
  - apply colliding_tickers.
Qed.

(** ** Exact least squares on a line *)

Module ExactFacts.
Import Exact.
Local Open Scope R_scope.

Lemma sum_sqr_nonneg {A} (g : A -> R) (l : list A) :
  0 <= sum_R (map (fun i => Rsqr (g i)) l).
Proof.
  induction l as [|i l IH]; simpl; [lra|].
  pose proof (Rle_0_sqr (g i)). lra.
Qed.

Lemma sum_sqr_zero {A} (g : A -> R) (l : list A) :
  sum_R (map (fun i => Rsqr (g i)) l) = 0 -> forall i, In i l -> g i = 0.
Proof.
  induction l as [|j l IH]; simpl; intros Hs i Hin; [contradiction|].
  pose proof (Rle_0_sqr (g j)) as Hj.
  pose proof (sum_sqr_nonneg g l) as Hl.
  destruct Hin as [<-|Hin].
  - apply Rsqr_0_uniq. lra.
  - apply IH; [lra|exact Hin].
Qed.

Lemma sum_sqr_of_zeros {A} (g : A -> R) (l : list A) :
  (forall i, In i l -> g i = 0) -> sum_R (map (fun i => Rsqr (g i)) l) = 0.
Proof.
  induction l as [|j l IH]; simpl; intros Hz; [reflexivity|].
  rewrite (Hz j) by now left. rewrite IH by (intros; apply Hz; now right).
  rewrite Rsqr_0. lra.
Qed.

Lemma sse_nonneg (X : list (list R)) (y b : list R) : 0 <= sse X y b.
Proof. unfold sse. apply sum_sqr_nonneg. Qed.

Lemma nth_ones (n i : nat) : (i < n)%nat -> nth i (repeat 1 n) 0 = 1.
Proof.
  intros Hi. rewrite (nth_indep _ 0 1) by now rewrite repeat_length.
  apply nth_repeat.
Qed.

(** The fitted value of a design with a constant and one regressor. *)
Lemma predict_line (n : nat) (xr : list R) (b0 b1 : R) (i : nat) :
  (i < n)%nat ->
  predict [repeat 1 n; xr] [b0; b1] i = b0 + b1 * nth i xr 0.
Proof.
  intros Hi. unfold predict. simpl. rewrite (nth_ones Hi). lra.
Qed.

Section Line.
Variables (n : nat) (xr yr : list R) (al be : R).
Hypothesis Hx : List.length xr = n.
Hypothesis Hy : List.length yr = n.
Hypothesis Hline : forall i, (i < n)%nat -> nth i yr 0 = al + be * nth i xr 0.
Hypothesis Hvar :
  exists p q, (p < n)%nat /\ (q < n)%nat /\ nth p xr 0 <> nth q xr 0.

Lemma sse_line : sse [repeat 1 n; xr] yr [al; be] = 0.
Proof.
  unfold sse. apply sum_sqr_of_zeros. intros i Hi.
  apply in_seq in Hi. rewrite Hy in Hi.
  rewrite predict_line by lia. rewrite Hline by lia. lra.
Qed.

Lemma sse_zero_unique (b : list R) :
  List.length b = 2%nat -> sse [repeat 1 n; xr] yr b = 0 -> b = [al; be].
Proof.
  destruct b as [|b0 [|b1 [|? ?]]]; try discriminate. intros _ Hs.
  unfold sse in Hs.
  pose proof (sum_sqr_zero _ _ Hs) as Hz. cbv beta in Hz.
  destruct Hvar as (p & q & Hp & Hq & Hpq).
  assert (Ip : In p (seq 0 (List.length yr))) by (apply in_seq; lia).
  assert (Iq : In q (seq 0 (List.length yr))) by (apply in_seq; lia).
  pose proof (Hz p Ip) as Zp. pose proof (Hz q Iq) as Zq.
  rewrite (predict_line xr b0 b1 Hp), (Hline Hp) in Zp.
  rewrite (predict_line xr b0 b1 Hq), (Hline Hq) in Zq.
  assert (Hb1 : b1 = be).
  { assert (E : (be - b1) * (nth p xr 0 - nth q xr 0) = 0) by lra.
    apply Rmult_integral in E. destruct E as [E|E]; lra. }
  subst b1. f_equal. lra.
Qed.

Lemma is_ols_line : is_ols [repeat 1 n; xr] yr [al; be].
Proof.
  split.
  - split; [reflexivity|]. intros b' _. rewrite sse_line. apply sse_nonneg.
  - intros b' [Hlen Hmin].
    assert (Hs : sse [repeat 1 n; xr] yr b' = 0).
    { pose proof (Hmin [al; be] eq_refl) as Hle. rewrite sse_line in Hle.
      pose proof (sse_nonneg [repeat 1 n; xr] yr b'). lra. }
    rewrite (sse_zero_unique b' Hlen Hs). lra.
Qed.

(** When the data lie on a line and the regressor varies, the fit is that
    line. *)
Lemma ols_params_line : ols_params [repeat 1 n; xr] yr = [al; be].
Proof.
  unfold ols_params.
  pose proof (epsilon_spec (inhabits []) (is_ols [repeat 1 n; xr] yr)
                (ex_intro _ _ is_ols_line)) as [[Hlen Hmin] _].
  apply sse_zero_unique; [exact Hlen|].
  pose proof (Hmin [al; be] eq_refl) as Hle. rewrite sse_line in Hle.
  pose proof (sse_nonneg [repeat 1 n; xr] yr
                (epsilon (inhabits []) (is_ols [repeat 1 n; xr] yr))).
  lra.
Qed.

End Line.

End ExactFacts.

(** ** The estimator after the fit *)

Section CAPMForward.
Context {F : Type} `{Float64 F} `{NumPyMath F} `{StatsModels F}.

Lemma calculate_capm_fitted (a m : Series F) (rf : F)
  (model : RegressionResults F) :
  (10 <= List.length (aligned_rows a m))%nat ->
  OLS_fit
    (map (fun x => x - rf / of_int 252)%py
         (map (fun r => fst (snd r)) (aligned_rows a m)))
    (add_constant
       [("market",
         map (fun x => x - rf / of_int 252)%py
             (map (fun r => snd (snd r)) (aligned_rows a m)))])
    = ret model ->
  calculate_capm a m rf =
    try_except (capm_report (aligned_rows a m) rf model)
      (fun e => HTTPException 500
                  (Txt "CAPM calculation failed: " :: str_exn e)).
Proof.
  unfold aligned_rows, calculate_capm, calculate_capm_body, capm_report.
  intros Hlen Hfit.
  destruct (concat_inner a m) as [|r rows0] eqn:E.
  - simpl in Hlen. lia.
  - apply Nat.ltb_ge in Hlen. rewrite Hlen, Hfit. reflexivity.
Qed.

End CAPMForward.

(** ** The estimator in exact arithmetic *)

Module ExactCAPM.
Import Exact ExactFacts.
Local Open Scope R_scope.

Lemma reals_finite (l : list R) : reals (map XR l) = Some l.
Proof. induction l as [|x l IH]; simpl; [reflexivity|now rewrite IH]. Qed.

Lemma daily_rate (x rf : R) :
  (XR x - XR rf / of_int 252)%py = XR (x - rf / 252).
Proof.
  simpl. destruct (Req_dec_T 252 0) as [E|_]; [lra|reflexivity].
Qed.

Lemma excess_finite (rf : R) (l : list R) :
  map (fun x => x - XR rf / of_int 252)%py (map XR l)
    = map XR (map (fun x => x - rf / 252) l).
Proof.
  rewrite !map_map. apply map_ext. intros x. apply daily_rate.
Qed.

Lemma ones_finite (n : nat) : repeat (of_int 1) n = map XR (repeat 1 n).
Proof. induction n as [|n IH]; simpl; [reflexivity|now rewrite <- IH]. Qed.

Lemma xeqb_true (x y : R) : xeqb (XR x) (XR y) = true <-> x = y.
Proof. simpl. destruct (Req_dec_T x y); split; congruence. Qed.

(** A column with two different entries is not constant. *)
Lemma varying_not_const (l : list R) (p q : nat) :
  (p < List.length l)%nat -> (q < List.length l)%nat ->
  nth p l 0 <> nth q l 0 ->
  is_nonzero_const (map XR l) = false.
Proof.
  intros Hp Hq Hpq. destruct l as [|x l]; [reflexivity|].
  unfold is_nonzero_const. change (map XR (x :: l)) with (XR x :: map XR l).
  apply andb_false_iff. left.
  apply not_true_iff_false. intros Hall.
  rewrite forallb_forall in Hall.
  assert (Hc : forall i, (i < List.length (x :: l))%nat -> nth i (x :: l) 0 = x).
  { intros i Hi. symmetry. apply xeqb_true. apply Hall.
    change (XR x :: map XR l) with (map XR (x :: l)).
    apply in_map. now apply nth_In. }
  apply Hpq. now rewrite (Hc p Hp), (Hc q Hq).
Qed.

(** A column of one repeated non-zero number is a constant. *)
Lemma repeated_is_const (c : R) (n : nat) :
  c <> 0 -> (0 < n)%nat -> is_nonzero_const (map XR (repeat c n)) = true.
Proof.
  intros Hc Hn. destruct n as [|n]; [lia|].
  unfold is_nonzero_const. change (repeat c (S n)) with (c :: repeat c n).
  change (map XR (c :: repeat c n)) with (XR c :: map XR (repeat c n)).
  apply andb_true_iff. split.
  - apply forallb_forall. intros v Hv.
    change (XR c :: map XR (repeat c n)) with (map XR (repeat c (S n))) in Hv.
    apply in_map_iff in Hv. destruct Hv as (w & <- & Hw).
    apply repeat_spec in Hw. subst w. now apply xeqb_true.
  - simpl. destruct (Req_dec_T c 0); [contradiction|reflexivity].
Qed.

Lemma nth_map_lt {A B} (f : A -> B) (l : list A) (i : nat) (d : B) (d' : A) :
  (i < List.length l)%nat -> nth i (map f l) d = f (nth i l d').
Proof.
  intros Hi. rewrite (nth_indep _ d (f d')) by now rewrite length_map.
  apply map_nth.
Qed.

Lemma finite_asset (rr : list (date * (R * R))) :
  map (fun r => fst (snd r)) (finite_rows rr)
    = map XR (map (fun r => fst (snd r)) rr).
Proof. unfold finite_rows. now rewrite !map_map. Qed.

Lemma finite_market (rr : list (date * (R * R))) :
  map (fun r => snd (snd r)) (finite_rows rr)
    = map XR (map (fun r => snd (snd r)) rr).
Proof. unfold finite_rows. now rewrite !map_map. Qed.

Section OnLine.
Variable inf : Inference.
Variables (a m : Series xreal) (rf : R) (rr : list (date * (R * R))).
Variables (al be : R).
Hypothesis Hrows : aligned_rows a m = finite_rows rr.
Hypothesis Hlen : (10 <= List.length rr)%nat.
Hypothesis Hline :
  forall r, In r rr ->
    fst (snd r) - rf / 252 = al + be * (snd (snd r) - rf / 252).
Hypothesis Hvar :
  exists r1 r2, In r1 rr /\ In r2 rr /\ snd (snd r1) <> snd (snd r2).

Let n := List.length rr.
Let yr := map (fun x => x - rf / 252) (map (fun r => fst (snd r)) rr).
Let xr := map (fun x => x - rf / 252) (map (fun r => snd (snd r)) rr).

Lemma line_lengths : List.length xr = n /\ List.length yr = n.
Proof. unfold xr, yr, n. now rewrite !length_map. Qed.

Lemma line_rows (i : nat) : (i < n)%nat -> nth i yr 0 = al + be * nth i xr 0.
Proof.
  intros Hi. unfold yr, xr.
  rewrite !(nth_map_lt _ _ 0 0) by now rewrite length_map.
  rewrite !(nth_map_lt _ _ 0 (0%Z, (0, 0))) by exact Hi.
  apply Hline. now apply nth_In.
Qed.

Lemma line_varies :
  exists p q, (p < n)%nat /\ (q < n)%nat /\ nth p xr 0 <> nth q xr 0.
Proof.
  destruct Hvar as (r1 & r2 & H1 & H2 & Hne).
  destruct (In_nth _ _ (0%Z, (0, 0)) H1) as (p & Hp & E1).
  destruct (In_nth _ _ (0%Z, (0, 0)) H2) as (q & Hq & E2).
  exists p, q. repeat split; try assumption. unfold xr.
  rewrite !(nth_map_lt _ _ 0 0) by now rewrite length_map.
  rewrite !(nth_map_lt _ _ 0 (0%Z, (0, 0))) by assumption.
  rewrite E1, E2. lra.
Qed.

Lemma line_params : ols_params [repeat 1 n; xr] yr = [al; be].
Proof.
  destruct line_lengths as [Lx Ly].
  exact (@ols_params_line n xr yr al be Lx Ly line_rows line_varies).
Qed.

Lemma line_design :
  add_constant
    [("market",
      map (fun x => x - XR rf / of_int 252)%py
          (map (fun r => snd (snd r)) (finite_rows rr)))]
  = [("const", map XR (repeat 1 n)); ("market", map XR xr)].
Proof.
  rewrite finite_market, excess_finite.
  fold xr. unfold add_constant. cbn [existsb snd].
  destruct line_varies as (p & q & Hp & Hq & Hpq).
  destruct line_lengths as [Lx _].
  rewrite (@varying_not_const xr p q) by (rewrite ?Lx; assumption).
  cbn [orb nrows]. rewrite length_map, Lx, ones_finite. reflexivity.
Qed.

Lemma line_fit :
  exists model,
    @OLS_fit xreal (exact_ols inf)
      (map (fun x => x - XR rf / of_int 252)%py
           (map (fun r => fst (snd r)) (finite_rows rr)))
      (add_constant
         [("market",
           map (fun x => x - XR rf / of_int 252)%py
               (map (fun r => snd (snd r)) (finite_rows rr)))])
      = ret model /\
    params model = [("const", XR al); ("market", XR be)] /\
    rsquared model = (of_int 1 - XR 0 / XR (centered_tss yr))%py /\
    (exists se, assoc "market" (bse model) = Some se) /\
    (exists pv, assoc "market" (pvalues model) = Some pv).
Proof.
  rewrite line_design, finite_asset, excess_finite. fold yr.
  cbn [OLS_fit exact_ols]. unfold exact_OLS_fit.
  rewrite reals_finite. cbn [frame_reals]. rewrite !reals_finite.
  eexists. split; [reflexivity|]. cbn [params rsquared bse pvalues].
  split; [|split; [|split]].
  - unfold by_column. cbn. rewrite line_params. reflexivity.
  - unfold ols_rsquared. cbn [existsb snd].
    rewrite (@repeated_is_const 1 n) by (try lra; unfold n; lia).
    cbn [orb]. rewrite line_params.
    destruct line_lengths as [Lx Ly].
    rewrite (@sse_line n xr yr al be Lx Ly line_rows). reflexivity.
  - eexists. unfold by_column. cbn. reflexivity.
  - eexists. unfold by_column. cbn. reflexivity.
Qed.

(** On aligned rows that lie on the line [al + be * x], with a market
    column that varies, the estimator succeeds and reports that line. *)
Lemma capm_on_line :
  exists d,
    capm_exact inf a m (XR rf) = ret d /\
    assoc "beta" d = Some (PyFloat (XR be)) /\
    assoc "alpha" d = Some (PyFloat (XR (al * 252))) /\
    assoc "r_squared" d
      = Some (PyFloat (of_int 1 - XR 0 / XR (centered_tss yr))%py).
Proof.
  destruct line_fit as (model & Hfit & Hp & Hr & [se Hse] & [pv Hpv]).
  unfold capm_exact.
  rewrite (@calculate_capm_fitted xreal xreal64 exact_power (exact_ols inf)
             a m (XR rf) model).
  - unfold capm_report, getitem, bind, try_except.
    rewrite Hp, Hse, Hpv, Hr. cbn [assoc String.eqb Ascii.eqb Bool.eqb].
    eexists. split; [reflexivity|]. repeat split.
  - rewrite Hrows. unfold finite_rows. now rewrite length_map.
  - rewrite Hrows. exact Hfit.
Qed.

End OnLine.

(** *** Identical asset and market series *)

Lemma loc_self {A} (s : list (date * A)) :
  NoDup (index s) -> forall r, In r s -> loc (fst r) s = Some (snd r).
Proof.
  induction s as [|[d v] s IH]; intros Hnd r Hin; [contradiction|].
  inversion Hnd as [|? ? Hnotin Hnd']; subst. simpl.
  destruct Hin as [<-|Hin]; simpl.
  - now rewrite Z.eqb_refl.
  - destruct (Z.eqb_spec (fst r) d) as [E|_].
    + elim Hnotin. rewrite <- E. unfold index. now apply in_map.
    + now apply IH.
Qed.

Lemma concat_inner_found {F} (a b : Series F) :
  (forall r, In r a -> loc (fst r) b = Some (snd r)) ->
  concat_inner a b = map (fun r => (fst r, (snd r, snd r))) a.
Proof.
  induction a as [|[d x] a IH]; intros Hf; simpl; [reflexivity|].
  pose proof (Hf (d, x) (or_introl eq_refl)) as E. cbn [fst snd] in E.
  rewrite E, IH; [reflexivity|]. intros r Hr. apply Hf. now right.
Qed.

Lemma dropna2_finite (rr : list (date * (R * R))) :
  dropna2 (finite_rows rr) = finite_rows rr.
Proof.
  unfold dropna2, finite_rows.
  induction rr as [|r rr IH]; simpl in *; [reflexivity|]. now rewrite IH.
Qed.

Lemma aligned_rows_self (sr : list (date * R)) :
  NoDup (index sr) ->
  aligned_rows (finite_series sr) (finite_series sr)
    = finite_rows (map (fun r => (fst r, (snd r, snd r))) sr).
Proof.
  intros Hnd. unfold aligned_rows.
  rewrite concat_inner_found.
  - replace (map _ (finite_series sr))
      with (finite_rows (map (fun r => (fst r, (snd r, snd r))) sr)).
    + apply dropna2_finite.
    + unfold finite_rows, finite_series. now rewrite !map_map.
  - apply loc_self. unfold index, finite_series. rewrite map_map.
    exact Hnd.
Qed.

Lemma centered_tss_varies (y : list R) (p q : nat) :
  (p < List.length y)%nat -> (q < List.length y)%nat ->
  nth p y 0 <> nth q y 0 -> centered_tss y <> 0.
Proof.
  intros Hp Hq Hpq Hz. unfold centered_tss in Hz.
  pose proof (sum_sqr_zero (fun v => v - mean_R y) y Hz) as Hall.
  pose proof (Hall _ (nth_In y 0 Hp)). pose proof (Hall _ (nth_In y 0 Hq)).
  lra.
Qed.


(** *** A constant market column *)

Lemma map_constant {A B} (f : A -> B) (k : B) (l : list A) :
  (forall x, In x l -> f x = k) -> map f l = repeat k (List.length l).
Proof.
  induction l as [|x l IH]; intros Hk; simpl; [reflexivity|].
  rewrite (Hk x) by now left. f_equal. apply IH. intros y Hy. apply Hk.
  now right.
Qed.

(** When every aligned market return is the same number [c] and
    [c - rf/252] is not zero, [add_constant] adds no column, the fit has no
    [const] parameter and the estimator fails on [params['const']]. *)
Lemma capm_constant_market (inf : Inference) (a m : Series xreal) (rf : R)
  (rr : list (date * (R * R))) (c : R) :
  aligned_rows a m = finite_rows rr ->
  (10 <= List.length rr)%nat ->
  (forall r, In r rr -> snd (snd r) = c) ->
  c - rf / 252 <> 0 ->
  capm_exact inf a m (XR rf) =
    raise (HTTPException 500 [Txt "CAPM calculation failed: "; Txt "'const'"]).
Proof.
  intros Hrows Hlen Hc Hnz.
  assert (Hx : map (fun x => x - XR rf / of_int 252)%py
                 (map (fun r => snd (snd r)) (finite_rows rr))
               = map XR (repeat (c - rf / 252) (List.length rr))).
  { rewrite finite_market, excess_finite. f_equal. rewrite map_map.
    apply map_constant. intros r Hr. now rewrite (Hc r Hr). }
  assert (Hdesign :
    add_constant
      [("market",
        map (fun x => x - XR rf / of_int 252)%py
            (map (fun r => snd (snd r)) (finite_rows rr)))]
    = [("market", map XR (repeat (c - rf / 252) (List.length rr)))]).
  { rewrite Hx. unfold add_constant. cbn [existsb snd].
    rewrite repeated_is_const by (assumption || lia). reflexivity. }
  assert (Hfit : exists model v,
    @OLS_fit xreal (exact_ols inf)
      (map (fun x => x - XR rf / of_int 252)%py
           (map (fun r => fst (snd r)) (finite_rows rr)))
      (add_constant
         [("market",
           map (fun x => x - XR rf / of_int 252)%py
               (map (fun r => snd (snd r)) (finite_rows rr)))])
      = ret model /\
    params model = [("market", v)]).
  { rewrite Hdesign, finite_asset, excess_finite.
    cbn [OLS_fit exact_ols]. unfold exact_OLS_fit.
    rewrite reals_finite. cbn [frame_reals]. rewrite !reals_finite.
    eexists. eexists. split; reflexivity. }
  destruct Hfit as (model & v & Hfit & Hp).
  unfold capm_exact.
  rewrite (@calculate_capm_fitted xreal xreal64 exact_power (exact_ols inf)
             a m (XR rf) model).
  - unfold capm_report, getitem, bind, try_except. rewrite Hp. reflexivity.
  - rewrite Hrows. unfold finite_rows. now rewrite length_map.
  - rewrite Hrows. exact Hfit.
Qed.

(** *** A constant daily return *)

Lemma prod_constant (r : R) (n : nat) (acc : R) :
  fold_left fmul (map (fun x => of_int 1 + x)%py (repeat (XR r) n)) (XR acc)
    = XR (acc * (1 + r) ^ n).
Proof.
  revert acc. induction n as [|n IH]; intros acc; simpl.
  - f_equal. lra.
  - rewrite IH. f_equal. ring.
Qed.

Lemma np_prod_constant (r : R) (n : nat) :
  np_prod (map (fun x => of_int 1 + x)%py (repeat (XR r) n))
    = XR ((1 + r) ^ n).
Proof.
  unfold np_prod. change (of_int 1) with (XR 1) at 2.
  rewrite prod_constant. f_equal. ring.
Qed.

Lemma INR_252 : INR 252 = 252.
Proof. rewrite INR_IZR_INZ. reflexivity. Qed.

(** [((1 + r)^n)^(252/n) - 1 = (1 + r)^252 - 1] for [r >= -1]. *)
Lemma annualize_constant (r : R) (n : nat) :
  (0 < n)%nat -> -1 <= r ->
  (np_power (of_int 1 + (XR ((1 + r) ^ n) - of_int 1))
            (of_int 252 / of_int (Z.of_nat n)) - of_int 1)%py
    = XR ((1 + r) ^ 252 - 1).
Proof.
  intros Hn Hr.
  assert (Hpos : 0 < INR n) by now apply lt_0_INR.
  cbn [of_int fadd fsub fdiv xreal64 lift2 np_power exact_power].
  unfold xdiv. rewrite <- INR_IZR_INZ.
  destruct (Req_dec_T (INR n) 0) as [E|_]; [lra|].
  replace (1 + ((1 + r) ^ n - 1)) with ((1 + r) ^ n) by ring.
  assert (He : 0 < 252 / INR n) by (apply Rdiv_lt_0_compat; lra).
  unfold xpower.
  destruct (Req_dec_T (1 + r) 0) as [Ez|Hnz].
  - rewrite Ez, !pow_i by lia.
    destruct (Rlt_dec 0 0) as [L|_]; [lra|].
    destruct (Req_dec_T 0 0) as [_|N]; [|lra].
    destruct (Rlt_dec 0 (252 / INR n)) as [_|N]; [|lra].
    reflexivity.
  - assert (Hb : 0 < 1 + r) by lra.
    assert (Hbn : 0 < (1 + r) ^ n) by now apply pow_lt.
    destruct (Rlt_dec 0 ((1 + r) ^ n)) as [_|N]; [|lra].
    simpl. f_equal. f_equal.
    rewrite <- (Rpower_pow n) by exact Hb.
    rewrite Rpower_mult.
    replace (INR n * (252 / INR n)) with (INR 252)
      by (rewrite INR_252; field; lra).
    now apply Rpower_pow.
Qed.


(** *** Runs on concrete series *)

Lemma NoDup_days {A} (f : nat -> A) (n : nat) :
  NoDup (index (map (fun i => (Z.of_nat i, f i)) (seq 0 n))).
Proof.
  unfold index. rewrite map_map. cbn [fst].
  apply Injective_map_NoDup; [|apply seq_NoDup].
  intros i j. apply Nat2Z.inj.
Qed.

Lemma ramp_rows_asset (c : R) (n : nat) (r : date * (R * R)) :
  In r (ramp_rows c n) -> fst (snd r) = c.
Proof.
  unfold ramp_rows. intros Hr. apply in_map_iff in Hr.
  now destruct Hr as (i & <- & _).
Qed.

Lemma ramp_rows_vary (c : R) (n : nat) :
  (2 <= n)%nat ->
  exists r1 r2,
    In r1 (ramp_rows c n) /\ In r2 (ramp_rows c n) /\
    snd (snd r1) <> snd (snd r2).
Proof.
  intros Hn. exists (Z.of_nat 0, (c, INR 0)), (Z.of_nat 1, (c, INR 1)).
  repeat split.
  - apply (in_map (fun i => (Z.of_nat i, (c, INR i)))). apply in_seq. lia.
  - apply (in_map (fun i => (Z.of_nat i, (c, INR i)))). apply in_seq. lia.
  - simpl. lra.
Qed.

(** A constant asset against the ramp: the fit is the horizontal line. *)
Lemma capm_const_ramp (inf : Inference) (c rf : R) (n : nat) :
  (10 <= n)%nat ->
  aligned_rows (finite_series (const_series c n)) (finite_series (ramp n))
    = finite_rows (ramp_rows c n) ->
  exists d,
    capm_exact inf (finite_series (const_series c n)) (finite_series (ramp n))
      (XR rf) = ret d /\
    assoc "beta" d = Some (PyFloat (XR 0)).
Proof.
  intros Hn Hrows.
  destruct (@capm_on_line inf _ _ rf (ramp_rows c n) (c - rf / 252) 0 Hrows)
    as (d & Hd & Hb & _).
  - unfold ramp_rows. now rewrite length_map, length_seq.
  - intros r Hr. rewrite (ramp_rows_asset _ _ _ Hr). lra.
  - apply ramp_rows_vary. lia.
  - exists d. split; assumption.
Qed.

Lemma aligned_10 (c : R) :
  aligned_rows (finite_series (const_series c 10)) (finite_series (ramp 10))
    = finite_rows (ramp_rows c 10).
Proof. reflexivity. Qed.

Lemma aligned_11 (c : R) :
  aligned_rows (finite_series (const_series c 11)) (finite_series (ramp 11))
    = finite_rows (ramp_rows c 11).
Proof. reflexivity. Qed.




Lemma not_integer_252_11 : is_integer (252 / 11) = false.
Proof.
  unfold is_integer. destruct (Req_dec_T _ _) as [E|_]; [|reflexivity].
  exfalso. set (z := Int_part (252 / 11)) in E.
  assert (E' : IZR (z * 11) = IZR 252) by (rewrite mult_IZR, E; field).
  apply eq_IZR in E'. lia.
Qed.



End ExactCAPM.

(** ** Runs on concrete inputs *)

Module Examples.
Import Binary64 Exact ExactCAPM Fixtures.

Lemma get_returns_spec_witness :
  @get_returns float _ three_price_feed "AAPL" "2y"
    = ret (dropna (pct_changes (of_int 100)
                     [(1%Z, of_int 110); (2%Z, of_int 99)])).
Proof.
  exact (@get_returns_spec float _ three_price_feed "AAPL" "2y"
           [(0%Z, of_int 100); (1%Z, of_int 110); (2%Z, of_int 99)] eq_refl).
Defined.

(** C8 as stated fails on a history of one price: nothing is raised, the
    empty series is returned. *)
Lemma single_price_returns_empty :
  @get_returns float _ one_price_feed "AAPL" "2y" = ret [].
Proof. reflexivity. Qed.

Lemma pct_changes_flat (l : list nat) :
  pct_changes (XR 1) (map (fun i => (Z.of_nat i, XR 1)) l)
    = map (fun i => (Z.of_nat i, XR (1 / 1 - 1)%R)) l.
Proof.
  induction l as [|i l IH]; simpl; [reflexivity|].
  destruct (Req_dec_T 1 0) as [E|_]; [exfalso; lra|]. now rewrite IH.
Qed.

(** The returns of that provider: 31 days of the return [1/1 - 1]. *)
Lemma flat_returns (ticker period : string) :
  @get_returns xreal _ flat_feed ticker period
    = ret (map (fun i => (Z.of_nat i, XR (1 / 1 - 1)%R)) (seq 1 31)).
Proof.
  unfold get_returns, returns_of_history. cbn [history flat_feed].
  change (seq 0 32) with (0%nat :: seq 1 31). cbn [map bind try_except].
  rewrite dropna_pct_change, pct_changes_flat. reflexivity.
Qed.

(** Nine common dates; and the portfolio of one ticker with the weight
    NaN, whose weighted returns are all NaN. *)
Lemma capm_insufficient_data_fails_witness :
  capm_exact no_inference (finite_series (ramp 9)) (finite_series (ramp 9))
    (XR 0)
  = raise (HTTPException 500
             [Txt "CAPM calculation failed: ";
              Txt "Insufficient data points after alignment"]) /\
  @portfolio_capm xreal _ exact_power (exact_ols no_inference) flat_feed
    ["AAPL"] [XNaN]
  = raise (HTTPException 500
             [Txt "CAPM calculation failed: ";
              Txt "Insufficient data points after alignment"]).
Proof.
  split.
  - refine (proj1 (@capm_insufficient_data_fails xreal xreal64 exact_power
                     (exact_ols no_inference) one_price_feed
                     (finite_series (ramp 9)) (finite_series (ramp 9))
                     (XR 0) _)).
    change (9 < 10)%nat. lia.
  - refine (proj2 (proj2 (proj2
      (@capm_insufficient_data_fails xreal xreal64 exact_power
         (exact_ols no_inference) flat_feed
         (map (fun i => (Z.of_nat i, XNaN)) (seq 1 31))
         (map (fun i => (Z.of_nat i, XR (1 / 1 - 1)%R)) (seq 1 31))
         (XR 0) _)))
      ["AAPL"] [XNaN] XNaN
      [("AAPL", map (fun i => (Z.of_nat i, XR (1 / 1 - 1)%R)) (seq 1 31))]
      (map (fun i => (Z.of_nat i, XNaN)) (seq 1 31))
      (map (fun i => (Z.of_nat i, XR (1 / 1 - 1)%R)) (seq 1 31))
      eq_refl _ eq_refl _ _ eq_refl _).
    + change (0 < 10)%nat. lia.
    + cbn [fetch_all]. rewrite flat_returns. reflexivity.
    + change (30 <= 31)%nat. lia.
    + apply flat_returns.
    + change (30 <= 31)%nat. lia.
Defined.

(** C2 as stated fails: nine common dates make [calculate_capm] raise an
    [HTTPException] whose status, 500, is not a client fault. *)
Lemma short_series_server_fault :
  exists e,
    capm_exact no_inference (finite_series (ramp 9)) (finite_series (ramp 9))
      (XR 0) = raise e /\
    status_of e = Some 500%Z /\ client_fault e = false.
Proof. eexists. repeat split. Qed.

Lemma missing_asset_raises :
  @factor_exposure_body xreal xreal64 (exact_ols no_inference)
    quiet already_business start missing_asset zero_factors
  = raise (ValueError [Txt "Not enough valid data points for regression"]).
Proof. reflexivity. Qed.

Lemma raised_reports_100_witness :
  assoc "n_observations" (fst (exposure_example start missing_asset zero_factors))
    = Some (PyInt 100).
Proof.
  exact (proj2 (@raised_reports_100 xreal xreal64 (exact_ols no_inference)
                  quiet already_business start missing_asset zero_factors
                  _ missing_asset_raises)).
Defined.

Lemma placeholder_instead_of_failure_witness :
  assoc "n_observations"
    (fst (exposure_example start (finite_series (ramp 3)) (firstn 3 zero_factors)))
    = Some (PyInt 3) /\
  assoc "n_observations" (fst (exposure_example start [] [])) = Some (PyInt 100) /\
  exposure_example start missing_asset zero_factors = demo_error start.
Proof.
  split; [|split].
  - refine (proj2 (proj1 (@placeholder_instead_of_failure xreal xreal64
              (exact_ols no_inference) quiet already_business start
              (finite_series (ramp 3)) (firstn 3 zero_factors))
              3%nat eq_refl _)). lia.
  - refine (proj2 (proj1 (@placeholder_instead_of_failure xreal xreal64
              (exact_ols no_inference) quiet already_business start
              [] []) 0%nat eq_refl _)). lia.
  - exact (proj1 (proj2 (@placeholder_instead_of_failure xreal xreal64
              (exact_ols no_inference) quiet already_business start
              missing_asset zero_factors)) _ missing_asset_raises).
Defined.

(** C1 as stated fails: the dictionary returned for two series without a
    common date has the keys of a fitted result and nothing that flags it. *)
Lemma placeholder_not_flagged :
  all_keys (PyDict (fst (exposure_example start [] []))) = fitted_keys /\
  flagged (fst (exposure_example start [] [])) = false.
Proof. split; reflexivity. Qed.

(** C4 as stated fails: in that process, with the generator without noise,
    the frame for AAPL returned one day later is another frame, and two
    distinct tickers get the same frame. *)
Lemma synthesizer_claim_fails :
  fst (@get_fama_french_factors float _ quiet_random poly_hash 0 "AAPL")
    <> fst (@get_fama_french_factors float _ quiet_random poly_hash
              day_us "AAPL") /\
  exists t1 t2 : string,
    t1 <> t2 /\
    @get_fama_french_factors float _ quiet_random poly_hash 0 t1
      = @get_fama_french_factors float _ quiet_random poly_hash 0 t2.
Proof. exact (@clock_and_collisions float _ quiet_random poly_hash). Qed.


(** With those weights a day on which AAPL returns 2% and MSFT 1% gives
    the portfolio [0.02 * 1.5 + 0.01 * -0.5]. *)
Lemma long_short_composite :
  @weighted_sum float _
    [("AAPL", [(0%Z, decimal 2 100)]); ("MSFT", [(0%Z, decimal 1 100)])]
    [("AAPL", of_int 150); ("MSFT", of_int (-50))] None
  = ret (Some [(0%Z, (decimal 2 100 * decimal 15 10
                      + decimal 1 100 * decimal (-5) 10)%py)]).
Proof. vm_compute. reflexivity. Qed.

(** The two sums of the spec: 100.005 passes, 99.0 does not. *)
Lemma weights_100_005_accepted :
  @validate_portfolio float _ ["AAPL"; "MSFT"] [decimal 60005 1000; of_int 40]
    = ret (decimal 100005 1000).
Proof. vm_compute. reflexivity. Qed.

Lemma weights_99_rejected :
  @validate_portfolio float _ ["AAPL"; "MSFT"] [of_int 59; of_int 40]
    = raise (HTTPException 400
               [Txt "Weights must sum to 100. Current sum: ";
                FltV (of_int 99)]).
Proof. vm_compute. reflexivity. Qed.

(** C5: the code at the weight list [nan], which [float("nan")] parses.
    The sum is NaN, the test [abs(total - 100.0) > 0.01] is false, and the
    list passes the validation although its sum is not within 0.01 of 100. *)
Theorem nan_weight_passes_validation :
  @validate_portfolio float _ ["AAPL"] [PrimFloat.nan] = ret PrimFloat.nan /\
  (fabs (py_sum [PrimFloat.nan] - of_int 100) <= decimal 1 100)%py = false.
Proof. split; vm_compute; reflexivity. Qed.

End Examples.

(** * Further properties of the code *)

(** ** Data fetcher *)

Section DataFetcherMore.
Context {F : Type} `{Float64 F} `{YFinance F}.

(** X1.  Every failure of [get_returns] is an [HTTPException] 400 whose detail
    names the ticker and carries the text of what went wrong: the
    provider's exception, or "No data found" for an empty history. *)
Theorem get_returns_failure (ticker period : string) (e : exn F) :
  get_returns ticker period = raise e ->
  status_of e = Some 400%Z /\
  ((exists e0,
      history ticker period = raise e0 /\
      e = HTTPException 400
            (Txt "Error fetching data for " :: Txt ticker :: Txt ": "
               :: str_exn e0)) \/
   (history ticker period = ret [] /\
    e = HTTPException 400
          [Txt "Error fetching data for "; Txt ticker; Txt ": ";
           Txt "No data found for "; Txt ticker])).
Proof.
  unfold get_returns, returns_of_history, try_except, bind.
  destruct (history ticker period) as [e0|[|r h]]; intros E;
    try discriminate; injection E as <-.
  - split; [reflexivity|]. left. exists e0. split; reflexivity.
  - split; [reflexivity|]. right. split; reflexivity.
Qed.

Lemma dropna_no_nan (s : Series F) :
  forall r, In r (dropna s) -> isnan (snd r) = false.
Proof.
  intros r Hr. unfold dropna in Hr. apply filter_In in Hr.
  destruct Hr as [_ Hn]. now apply negb_true_iff in Hn.
Qed.

Lemma filter_length_le {A} (f : A -> bool) (l : list A) :
  (List.length (filter f l) <= List.length l)%nat.
Proof.
  induction l as [|x l IH]; simpl; [lia|]. destruct (f x); simpl; lia.
Qed.

(** X2.  A returned series has no NaN, is shorter than the price history, and
    its dates are dates of the history after the first. *)
Theorem get_returns_clean (ticker period : string) (r : Series F) :
  get_returns ticker period = ret r ->
  exists d0 p0 rest,
    history ticker period = ret ((d0, p0) :: rest) /\
    (forall row, In row r -> isnan (snd row) = false) /\
    (List.length r <= List.length rest)%nat /\
    incl (index r) (index rest).
Proof.
  unfold get_returns, returns_of_history, try_except, bind.
  destruct (history ticker period) as [e0|[|[d0 p0] rest]]; intros E;
    try discriminate.
  injection E as <-. exists d0, p0, rest. split; [reflexivity|].
  rewrite isnan_nan. cbn [negb]. split; [apply dropna_no_nan|]. split.
  - unfold dropna. etransitivity; [apply filter_length_le|].
    rewrite <- (length_map fst (pct_changes p0 rest)).
    change (map fst (pct_changes p0 rest)) with (index (pct_changes p0 rest)).
    rewrite pct_changes_index. unfold index. now rewrite length_map.
  - intros d Hd. unfold index in Hd. apply in_map_iff in Hd.
    destruct Hd as (row & <- & Hrow). unfold dropna in Hrow.
    apply filter_In in Hrow. destruct Hrow as [Hrow _].
    rewrite <- (pct_changes_index p0 rest). unfold index. now apply in_map.
Qed.


End DataFetcherMore.

(** ** Alignment and the CAPM estimator *)

Section CAPMMore.
Context {F : Type} `{Float64 F} `{NumPyMath F} `{StatsModels F}.

Lemma loc_In {A} (d : date) (s : list (date * A)) (v : A) :
  loc d s = Some v -> In (d, v) s.
Proof.
  induction s as [|[d' v'] s IH]; simpl; [discriminate|].
  destruct (Z.eqb_spec d d') as [->|_].
  - intros E. injection E as ->. now left.
  - intros E. right. now apply IH.
Qed.

Lemma concat_inner_In (a b : Series F) (row : date * (F * F)) :
  In row (concat_inner a b) ->
  In (fst row, fst (snd row)) a /\ loc (fst row) b = Some (snd (snd row)).
Proof.
  induction a as [|[d x] a IH]; simpl; [contradiction|].
  destruct (loc d b) as [y|] eqn:E.
  - intros [<-|Hin]; cbn [fst snd].
    + split; [now left|exact E].
    + destruct (IH Hin) as [Ia Ib]. split; [now right|exact Ib].
  - intros Hin. destruct (IH Hin) as [Ia Ib]. split; [now right|exact Ib].
Qed.

Lemma concat_inner_length (a b : Series F) :
  (List.length (concat_inner a b) <= List.length a)%nat.
Proof.
  induction a as [|[d x] a IH]; simpl; [lia|].
  destruct (loc d b); simpl; lia.
Qed.

(** X4.  The rows the regression runs on: each pairs a row of the asset series
    with the market value of the same date, neither value is NaN, and
    there are no more of them than asset rows. *)
Theorem aligned_rows_sound (a m : Series F) :
  (forall row, In row (aligned_rows a m) ->
     In (fst row, fst (snd row)) a /\
     In (fst row, snd (snd row)) m /\
     isnan (fst (snd row)) = false /\ isnan (snd (snd row)) = false) /\
  (List.length (aligned_rows a m) <= List.length a)%nat.
Proof.
  unfold aligned_rows, dropna2. split.
  - intros row Hrow. apply filter_In in Hrow. destruct Hrow as [Hin Hn].
    apply concat_inner_In in Hin. destruct Hin as [Ha Hm].
    apply negb_true_iff, orb_false_iff in Hn. destruct Hn as [N1 N2].
    repeat split; try assumption. now apply loc_In.
  - etransitivity; [apply filter_length_le|apply concat_inner_length].
Qed.

(** X16.  [a.align(b, join='inner')] returns two series on one index, made of
    dates of both inputs. *)
Theorem align_inner_shape (a b : Series F) :
  index (fst (align_inner a b)) = index (snd (align_inner a b)) /\
  (List.length (fst (align_inner a b)) <= List.length a)%nat /\
  forall d, In d (index (fst (align_inner a b))) ->
    In d (index a) /\ In d (index b).
Proof.
  unfold align_inner, index. cbn [fst snd]. rewrite !map_map. cbn [fst].
  split; [reflexivity|]. split.
  - rewrite length_map. apply concat_inner_length.
  - intros d Hd. apply in_map_iff in Hd. destruct Hd as (row & <- & Hrow).
    apply concat_inner_In in Hrow. destruct Hrow as [Ha Hb].
    apply loc_In in Hb. split.
    + change (fst row) with (fst (fst row, fst (snd row))). now apply in_map.
    + change (fst row) with (fst (fst row, snd (snd row))). now apply in_map.
Qed.

(** X5.  A result of [calculate_capm] has the eleven keys of the source, in
    their order; it reports the number of aligned rows, at least 10, and
    the risk-free rate it was given. *)
Theorem calculate_capm_shape (a m : Series F) (rf : F) (d : pydict F) :
  calculate_capm a m rf = ret d ->
  keys d = [ "beta"; "alpha"; "r_squared"; "expected_return";
             "actual_return"; "treasury_yield"; "market_premium";
             "p_value"; "std_error"; "confidence_interval";
             "n_observations" ] /\
  assoc "n_observations" d
    = Some (PyInt (Z.of_nat (List.length (aligned_rows a m)))) /\
  (10 <= List.length (aligned_rows a m))%nat /\
  assoc "treasury_yield" d = Some (PyFloat rf).
Proof.
  intros Hd. apply calculate_capm_inr in Hd.
  destruct Hd as [Hn (model & beta & c & p & se & _ & _ & _ & _ & _ & ->)].
  repeat split. exact Hn.
Qed.


End CAPMMore.

(** ** The routes *)

Section RoutesMore.
Context {F : Type} `{Float64 F} `{NumPyMath F} `{StatsModels F} `{YFinance F}.

Lemma get_returns_raise_http (ticker period : string) (e : exn F) :
  get_returns ticker period = raise e -> exists d, e = HTTPException 400 d.
Proof.
  unfold get_returns, returns_of_history, try_except.
  destruct (bind _ _) as [e0|r]; intros E; [|discriminate].
  injection E as <-. eexists. reflexivity.
Qed.

Lemma calculate_capm_raise_http (a m : Series F) (rf : F) (e : exn F) :
  calculate_capm a m rf = raise e ->
  exists msg, e = HTTPException 500 (Txt "CAPM calculation failed: " :: msg).
Proof.
  unfold calculate_capm, try_except.
  destruct (calculate_capm_body a m rf) as [e0|d]; intros E;
    [|discriminate].
  injection E as <-. now exists (str_exn e0).
Qed.

(** X10.  Whatever fails under [GET /api/capm] (the provider, an empty history,
    too few rows, the regression), the caller sees status 400. *)
Theorem api_capm_failure (ticker period : string) (e : exn F) :
  api_capm ticker period = raise e -> status_of e = Some 400%Z.
Proof.
  unfold api_capm, try_except.
  destruct (bind _ _) as [e0|r]; intros E; [|discriminate].
  injection E as <-. reflexivity.
Qed.

(** X11.  A response of [GET /api/capm] echoes the ticker and the period, then
    carries the eleven keys of the estimator and the interpretation. *)
Theorem api_capm_response (ticker period : string) (d : pydict F) :
  api_capm ticker period = ret d ->
  keys d = [ "ticker"; "period"; "beta"; "alpha"; "r_squared";
             "expected_return"; "actual_return"; "treasury_yield";
             "market_premium"; "p_value"; "std_error";
             "confidence_interval"; "n_observations"; "interpretation" ] /\
  assoc "ticker" d = Some (PyStr ticker) /\
  assoc "period" d = Some (PyStr period) /\
  exists a m,
    get_returns ticker period = ret a /\
    get_returns "^GSPC" period = ret m /\
    assoc "n_observations" d
      = Some (PyInt (Z.of_nat (List.length (aligned_rows a m)))).
Proof.
  unfold api_capm, try_except, bind.
  destruct (get_returns ticker period) as [e|a]; [discriminate|].
  destruct (get_returns "^GSPC" period) as [e|m]; [discriminate|].
  destruct (calculate_capm a m get_risk_free_rate) as [e|capm] eqn:Hc;
    [discriminate|].
  intros E. injection E as <-.
  apply calculate_capm_inr in Hc.
  destruct Hc as [_ (model & beta & c & p & se & _ & _ & _ & _ & _ & ->)].
  repeat split. exists a, m. repeat split.
Qed.

Lemma assoc_dict_set_same {A} (k : string) (v : A) (d : list (string * A)) :
  assoc k (dict_set k v d) = Some v.
Proof.
  induction d as [|[k' v'] d IH]; simpl.
  - now rewrite String.eqb_refl.
  - destruct (String.eqb k k') eqn:E; simpl; rewrite ?String.eqb_refl, ?E;
      [reflexivity|exact IH].
Qed.

Lemma assoc_dict_set_other {A} (k k' : string) (v : A)
  (d : list (string * A)) :
  k' <> k -> assoc k' (dict_set k v d) = assoc k' d.
Proof.
  intros Hne. apply String.eqb_neq in Hne.
  induction d as [|[k0 v0] d IH]; simpl.
  - now rewrite Hne.
  - destruct (String.eqb k k0) eqn:E; simpl.
    + apply String.eqb_eq in E. subst k0. now rewrite Hne.
    + now rewrite IH.
Qed.

(** After the fetch loop every ticker of the list is a key of
    [all_returns]. *)
Lemma fetch_all_keys (tl : list string) :
  forall acc all,
    fetch_all tl acc = ret all ->
    forall t, In t tl \/ assoc t acc <> None -> assoc t all <> None.
Proof.
  induction tl as [|t0 tl IH]; intros acc all Hf t Ht; simpl in Hf.
  - injection Hf as <-. destruct Ht as [[]|Ht]. exact Ht.
  - destruct (get_returns t0 "2y") as [e|r]; [discriminate|].
    apply (IH _ _ Hf). destruct Ht as [[->|Ht]|Ht].
    + right. rewrite assoc_dict_set_same. discriminate.
    + now left.
    + right. destruct (string_dec t t0) as [->|Hne].
      * rewrite assoc_dict_set_same. discriminate.
      * now rewrite assoc_dict_set_other.
Qed.

Lemma fetch_all_raise (tl : list string) :
  forall acc e,
    fetch_all tl acc = raise e ->
    exists t e0,
      In t tl /\ get_returns t "2y" = raise e0 /\
      e = HTTPException 400
            (Txt "Error fetching data for " :: Txt t :: Txt ": "
               :: str_exn e0).
Proof.
  induction tl as [|t0 tl IH]; intros acc e Hf; simpl in Hf; [discriminate|].
  destruct (get_returns t0 "2y") as [e0|r] eqn:G.
  - injection Hf as <-. exists t0, e0. split; [now left|]. split; [exact G|reflexivity].
  - destruct (IH _ _ Hf) as (t & e0 & Hin & Hg & He).
    exists t, e0. repeat split; try assumption. now right.
Qed.

Lemma weighted_sum_total (all : list (string * Series F))
  (pairs : list (string * F)) :
  (forall tw, In tw pairs -> assoc (fst tw) all <> None) ->
  forall acc, exists p,
    weighted_sum all pairs (Some acc) = ret (Some p).
Proof.
  induction pairs as [|[t w] rest IH]; intros Hk acc; simpl.
  - now exists acc.
  - unfold getitem.
    destruct (assoc t all) as [r|] eqn:A.
    + simpl. apply IH. intros tw Htw. apply Hk. now right.
    + elim (Hk (t, w)); [now left|exact A].
Qed.

Lemma weighted_sum_after_fetch (tl : list string) (wl : list F)
  (all : list (string * Series F)) :
  fetch_all tl [] = ret all ->
  exists p, weighted_sum all (combine tl wl) None = ret p.
Proof.
  intros Hf.
  assert (Hk : forall tw, In tw (combine tl wl) -> assoc (fst tw) all <> None).
  { intros [t w] Htw. apply in_combine_l in Htw.
    apply (fetch_all_keys _ _ Hf). now left. }
  destruct (combine tl wl) as [|[t w] rest]; simpl.
  - now exists None.
  - unfold getitem. destruct (assoc t all) as [r|] eqn:A.
    + simpl. destruct (weighted_sum_total all rest) with (acc := scale r (w / of_int 100)%py)
        as [p Hp].
      * intros tw Htw. apply Hk. now right.
      * exists (Some p). exact Hp.
    + elim (Hk (t, w)); [now left|exact A].
Qed.

Lemma align_inner_index (a b : Series F) :
  index (fst (align_inner a b)) = index (snd (align_inner a b)).
Proof. unfold align_inner, index. cbn [fst snd]. now rewrite !map_map. Qed.

(** X12.  A failure of [GET /api/portfolio/capm] on parsed lists is always an
    [HTTPException]: with status 400 from the validation, a fetch or one of
    the two 30-row checks, or with status 500 from the estimator.  Nothing
    reaches the generic "Portfolio analysis failed" handler. *)
Theorem portfolio_capm_failure (tl : list string) (wl : list F) (e : exn F) :
  portfolio_capm tl wl = raise e ->
  exists c d,
    e = HTTPException c d /\
    (c = 400%Z \/
     (c = 500%Z /\ exists msg, d = Txt "CAPM calculation failed: " :: msg)).
Proof.
  unfold portfolio_capm, try_except, bind.
  destruct (validate_portfolio tl wl) as [ev|total] eqn:V.
  { apply validate_portfolio_inl in V.
    destruct ev; simpl in V; try discriminate. injection V as ->.
    intros E. injection E as <-. eexists. eexists. split; [reflexivity|].
    now left. }
  destruct (fetch_all tl []) as [ef|all] eqn:Fe.
  { apply fetch_all_raise in Fe. destruct Fe as (t & e0 & _ & _ & ->).
    intros E. injection E as <-. eexists. eexists. split; [reflexivity|].
    now left. }
  destruct (@weighted_sum_after_fetch tl wl all Fe) as [p Hp]. rewrite Hp.
  destruct p as [p|].
  2:{ intros E. injection E as <-. eexists. eexists.
      split; [reflexivity|]. now left. }
  destruct (List.length p <? 30)%nat.
  { intros E. injection E as <-. eexists. eexists.
    split; [reflexivity|]. now left. }
  destruct (get_returns "^GSPC" "2y") as [eg|market] eqn:G.
  { apply get_returns_raise_http in G. destruct G as [d ->].
    intros E. injection E as <-. eexists. eexists. split; [reflexivity|].
    now left. }
  destruct (align_inner p market) as [p' m'].
  destruct (List.length p' <? 30)%nat.
  { intros E. injection E as <-. eexists. eexists.
    split; [reflexivity|]. now left. }
  destruct (calculate_capm p' m' get_risk_free_rate) as [ec|capm] eqn:C;
    [|discriminate].
  apply calculate_capm_raise_http in C. destruct C as [msg ->].
  intros E. injection E as <-. eexists. eexists. split; [reflexivity|].
  right. split; [reflexivity|]. now exists msg.
Qed.

Lemma fetch_all_succeeds (tl : list string) :
  forall acc all,
    fetch_all tl acc = ret all ->
    forall t, In t tl -> exists r, get_returns t "2y" = ret r.
Proof.
  induction tl as [|t0 tl IH]; intros acc all Hf t Ht; simpl in Hf;
    [contradiction|].
  destruct (get_returns t0 "2y") as [e|r] eqn:G; [discriminate|].
  destruct Ht as [<-|Ht]; [now exists r|]. exact (IH _ _ Hf t Ht).
Qed.

(** X13.  When the list is valid and the returns of one of its tickers cannot be
    fetched, the route fails with status 400, and the detail names a
    failing ticker twice: the route wraps the message [get_returns] has
    already wrapped. *)
Theorem portfolio_capm_fetch_failure (tl : list string) (wl : list F)
  (total : F) (t : string) (e0 : exn F) :
  validate_portfolio tl wl = ret total ->
  In t tl ->
  get_returns t "2y" = raise e0 ->
  exists t' msg,
    In t' tl /\
    portfolio_capm tl wl =
      raise (HTTPException 400
               (Txt "Error fetching data for " :: Txt t' :: Txt ": "
                  :: IntV 400 :: Txt ": "
                  :: Txt "Error fetching data for " :: Txt t' :: Txt ": "
                  :: msg)).
Proof.
  intros V Ht G. unfold portfolio_capm, try_except, bind. rewrite V.
  destruct (fetch_all tl []) as [ef|all] eqn:Fe.
  - apply fetch_all_raise in Fe. destruct Fe as (t' & e1 & Hin & G1 & ->).
    exists t'. unfold get_returns, returns_of_history, try_except in G1.
    destruct (bind _ _) as [e2|r]; [|discriminate].
    injection G1 as <-. exists (str_exn e2). split; [exact Hin|reflexivity].
  - destruct (fetch_all_succeeds _ _ Fe t Ht) as [r Hr]. congruence.
Qed.


(** The two routes on a run without failure. *)
Lemma api_capm_run (ticker period : string) (a m : Series F)
  (capm : pydict F) :
  get_returns ticker period = ret a ->
  get_returns "^GSPC" period = ret m ->
  calculate_capm a m get_risk_free_rate = ret capm ->
  exists d, api_capm ticker period = ret d.
Proof.
  intros Ha Hm Hc. unfold api_capm, try_except, bind.
  rewrite Ha, Hm, Hc. eexists. reflexivity.
Qed.

Lemma portfolio_capm_run (tl : list string) (wl : list F) (total : F)
  (all : list (string * Series F)) (p market p' m' : Series F)
  (capm : pydict F) :
  validate_portfolio tl wl = ret total ->
  fetch_all tl [] = ret all ->
  weighted_sum all (combine tl wl) None = ret (Some p) ->
  (30 <= List.length p)%nat ->
  get_returns "^GSPC" "2y" = ret market ->
  align_inner p market = (p', m') ->
  (30 <= List.length p')%nat ->
  calculate_capm p' m' get_risk_free_rate = ret capm ->
  exists d, portfolio_capm tl wl = ret d.
Proof.
  intros Hv Hf Hw Lp Hm Ha Lp' Hc. unfold portfolio_capm, try_except, bind.
  rewrite Hv, Hf, Hw. apply Nat.ltb_ge in Lp. rewrite Lp, Hm, Ha.
  apply Nat.ltb_ge in Lp'. rewrite Lp', Hc. eexists. reflexivity.
Qed.

End RoutesMore.

(** ** The composite return series *)

Section PortfolioMore.
Context {F : Type} `{Float64 F}.

Lemma loc_of_index {A} (d : date) (s : list (date * A)) :
  In d (index s) -> exists v, loc d s = Some v.
Proof.
  induction s as [|[d' v'] s IH]; simpl; [contradiction|].
  intros [E|Hin].
  - subst d'. rewrite Z.eqb_refl. now exists v'.
  - destruct (Z.eqb d d'); [now exists v'|now apply IH].
Qed.

Lemma index_of_loc {A} (d : date) (s : list (date * A)) (v : A) :
  loc d s = Some v -> In d (index s).
Proof.
  intros E. apply loc_In in E. unfold index.
  change d with (fst (d, v)). now apply in_map.
Qed.

Lemma fold_add_ticker_Some (all : list (string * Series F)) (d : date)
  (rest : list (string * F)) :
  forall acc v,
    fold_left (add_ticker all d) rest acc = Some v ->
    (exists a, acc = Some a) /\
    forall tw, In tw rest ->
      exists r x, assoc (fst tw) all = Some r /\ loc d r = Some x.
Proof.
  induction rest as [|tw0 rest IH]; intros acc v Hf; simpl in Hf.
  - split; [now exists v|]. intros tw [].
  - destruct (IH _ _ Hf) as [[a' Ha'] Hrest].
    unfold add_ticker in Ha'.
    destruct acc as [a|]; [|discriminate].
    destruct (assoc (fst tw0) all) as [r|] eqn:A; [|discriminate].
    destruct (loc d r) as [x|] eqn:L; [|discriminate].
    split; [now exists a|]. intros tw [<-|Hin].
    + now exists r, x.
    + now apply Hrest.
Qed.

(** X15.  The composite series has a row only on dates that every ticker of the
    portfolio has: a date missing for one ticker is dropped, not filled. *)
Theorem composite_dates_common (all : list (string * Series F))
  (pairs : list (string * F)) (p : Series F) :
  weighted_sum all pairs None = ret (Some p) ->
  forall d, In d (index p) ->
    forall tw, In tw pairs ->
      exists r, assoc (fst tw) all = Some r /\ In d (index r).
Proof.
  destruct pairs as [|[t1 w1] rest]; simpl; [discriminate|].
  unfold getitem.
  destruct (assoc t1 all) as [r1|] eqn:A; simpl; [|discriminate].
  intros Hs d Hd tw Htw.
  destruct (loc_of_index _ _ Hd) as [v Hv].
  rewrite (weighted_sum_loc _ _ _ Hs d) in Hv.
  destruct (fold_add_ticker_Some _ _ _ _ Hv) as [[a Ha] Hrest].
  destruct Htw as [<-|Hin].
  - exists r1. split; [exact A|]. rewrite loc_scale in Ha.
    destruct (loc d r1) as [x|] eqn:L; [|discriminate].
    exact (index_of_loc _ _ L).
  - destruct (Hrest _ Hin) as (r & x & Hr & Hx).
    exists r. split; [exact Hr|exact (index_of_loc _ _ Hx)].
Qed.

End PortfolioMore.

(** ** Parsing the query strings *)

Lemma comma_free_contains (s : string) :
  comma_free s = true -> contains "," s = false.
Proof.
  induction s as [|c s IH]; [reflexivity|].
  cbn [comma_free]. intros Hc. apply andb_true_iff in Hc.
  destruct Hc as [Hc Hs].
  change (contains "," (String c s))
    with (String.prefix "," (String c s) || contains "," s).
  rewrite (IH Hs), orb_false_r. cbn [String.prefix].
  destruct (ascii_dec "," c) as [<-|_]; [discriminate Hc|reflexivity].
Qed.

Lemma split_comma_free (s : string) :
  forall piece, In piece (split_comma s) -> comma_free piece = true.
Proof.
  induction s as [|c s IH]; simpl.
  - intros piece [<-|[]]. reflexivity.
  - destruct (Ascii.eqb c ",") eqn:E.
    + intros piece [<-|Hin]; [reflexivity|now apply IH].
    + destruct (split_comma s) as [|h t] eqn:S.
      * intros piece [<-|[]]. simpl. now rewrite E.
      * intros piece [<-|Hin].
        -- simpl. rewrite E. apply IH. now left.
        -- apply IH. now right.
Qed.

Lemma lstrip_comma_free (s : string) :
  comma_free s = true -> comma_free (lstrip s) = true.
Proof.
  induction s as [|c s IH]; simpl; [reflexivity|].
  intros Hc. destruct (is_space c); [|exact Hc].
  apply andb_true_iff in Hc. now apply IH.
Qed.

Lemma rstrip_comma_free (s : string) :
  comma_free s = true -> comma_free (rstrip s) = true.
Proof.
  induction s as [|c s IH]; simpl; [reflexivity|].
  intros Hc. apply andb_true_iff in Hc. destruct Hc as [Hc Hs].
  specialize (IH Hs). destruct (rstrip s) as [|a r].
  - destruct (is_space c); [reflexivity|]. simpl. now rewrite Hc.
  - simpl. rewrite Hc. exact IH.
Qed.

Lemma upper_ascii_comma (c : ascii) :
  Ascii.eqb (upper_ascii c) "," = Ascii.eqb c ",".
Proof. destruct c as [[] [] [] [] [] [] [] []]; reflexivity. Qed.

Lemma upper_ascii_idem (c : ascii) : upper_ascii (upper_ascii c) = upper_ascii c.
Proof. destruct c as [[] [] [] [] [] [] [] []]; reflexivity. Qed.

Lemma upper_ascii_space (c : ascii) : is_space (upper_ascii c) = is_space c.
Proof. destruct c as [[] [] [] [] [] [] [] []]; reflexivity. Qed.

Lemma upper_comma_free (s : string) : comma_free (upper s) = comma_free s.
Proof.
  induction s as [|c s IH]; simpl; [reflexivity|].
  now rewrite upper_ascii_comma, IH.
Qed.

Lemma upper_idem (s : string) : upper (upper s) = upper s.
Proof.
  induction s as [|c s IH]; simpl; [reflexivity|].
  now rewrite upper_ascii_idem, IH.
Qed.

Lemma lstrip_upper (s : string) : lstrip (upper s) = upper (lstrip s).
Proof.
  induction s as [|c s IH]; simpl; [reflexivity|].
  rewrite upper_ascii_space. destruct (is_space c); [exact IH|reflexivity].
Qed.

Lemma rstrip_upper (s : string) : rstrip (upper s) = upper (rstrip s).
Proof.
  induction s as [|c s IH]; simpl; [reflexivity|].
  rewrite IH, upper_ascii_space.
  destruct (rstrip s) as [|a r]; simpl.
  - destruct (is_space c); reflexivity.
  - reflexivity.
Qed.

Lemma lstrip_idem (s : string) : lstrip (lstrip s) = lstrip s.
Proof.
  induction s as [|c s IH]; simpl; [reflexivity|].
  destruct (is_space c) eqn:E; [exact IH|]. simpl. now rewrite E.
Qed.

Lemma rstrip_idem (s : string) : rstrip (rstrip s) = rstrip s.
Proof.
  induction s as [|c s IH]; simpl; [reflexivity|].
  destruct (rstrip s) as [|a r] eqn:R.
  - destruct (is_space c) eqn:E; [reflexivity|]. simpl. now rewrite E.
  - change (rstrip (String c (String a r)))
      with (match rstrip (String a r) with
            | EmptyString =>
                if is_space c then EmptyString else String c EmptyString
            | String a' r' => String c (String a' r')
            end).
    now rewrite IH.
Qed.

Lemma lstrip_rstrip (s : string) : lstrip (rstrip s) = rstrip (lstrip s).
Proof.
  induction s as [|c s IH]; [reflexivity|].
  cbn [lstrip]. destruct (is_space c) eqn:E.
  - cbn [rstrip]. destruct (rstrip s) as [|a r] eqn:R.
    + rewrite E. rewrite <- IH. reflexivity.
    + cbn [lstrip]. rewrite E. rewrite <- IH. reflexivity.
  - cbn [rstrip]. destruct (rstrip s) as [|a r] eqn:R.
    + rewrite E. cbn [lstrip]. now rewrite E.
    + cbn [lstrip]. now rewrite E.
Qed.

Lemma strip_idem (s : string) : strip (strip s) = strip s.
Proof.
  unfold strip. rewrite lstrip_rstrip, lstrip_idem, rstrip_idem. reflexivity.
Qed.

(** X17.  Every parsed ticker is a non-empty, upper-case piece of the query
    string without a comma and without blanks at its ends; blank pieces
    ("AAPL,,MSFT", a trailing comma) give no ticker. *)
Theorem parse_tickers_clean (tickers t : string) :
  In t (parse_tickers tickers) ->
  t <> EmptyString /\
  contains "," t = false /\
  upper t = t /\
  strip t = t.
Proof.
  unfold parse_tickers. intros Ht. apply in_map_iff in Ht.
  destruct Ht as (piece & <- & Hp). apply filter_In in Hp.
  destruct Hp as [Hin Hnb]. unfold nonblank in Hnb.
  repeat split.
  - destruct (strip piece); [discriminate|]. discriminate.
  - apply comma_free_contains. rewrite upper_comma_free. unfold strip.
    apply rstrip_comma_free, lstrip_comma_free.
    exact (split_comma_free _ _ Hin).
  - apply upper_idem.
  - unfold strip at 1. rewrite lstrip_upper, rstrip_upper.
    fold (strip (strip piece)). now rewrite strip_idem.
Qed.

Section RequestFacts.
Context {F : Type} `{Float64 F} `{NumPyMath F} `{StatsModels F} `{YFinance F}
        `{NumPyRandom F} `{PandasResample F} `{PyRuntime} `{PyConversions F}.

Lemma parse_floats_raise (pieces : list string) (w : string) :
  In w pieces -> float_of_str (strip w) = None ->
  exists w',
    In w' pieces /\ float_of_str (strip w') = None /\
    parse_floats pieces =
      raise (ValueError [Txt "could not convert string to float: ";
                         Txt (py_repr (strip w'))]).
Proof.
  induction pieces as [|w0 rest IH]; intros Hin Hnone; [contradiction|].
  simpl. destruct (float_of_str (strip w0)) as [x|] eqn:P.
  - destruct Hin as [->|Hin]; [congruence|].
    destruct (IH Hin Hnone) as (w' & Hw' & Hn' & ->).
    exists w'. split; [now right|]. split; [exact Hn'|reflexivity].
  - exists w0. split; [now left|]. split; [exact P|reflexivity].
Qed.

(** X18.  A weight that is no number does not give a 400: [float] raises
    [ValueError], which only the generic handler catches, and the caller
    sees status 500 with the message of [float] about a piece of the
    string that is no number, whatever the tickers are. *)
Theorem unparsable_weight_is_500 (tickers weights w : string) :
  In w (split_comma weights) ->
  nonblank w = true ->
  float_of_str (strip w) = None ->
  exists w',
    In w' (split_comma weights) /\
    float_of_str (strip w') = None /\
    portfolio_capm_request tickers weights =
      raise (HTTPException 500
               [Txt "Portfolio analysis failed: ";
                Txt "could not convert string to float: ";
                Txt (py_repr (strip w'))]).
Proof.
  intros Hin Hnb Hnone. unfold portfolio_capm_request, parse_weights.
  destruct (@parse_floats_raise (filter nonblank (split_comma weights)) w)
    as (w' & Hw' & Hn' & ->).
  - apply filter_In. now split.
  - exact Hnone.
  - exists w'. apply filter_In in Hw'. destruct Hw' as [Hw' _].
    split; [exact Hw'|]. split; [exact Hn'|reflexivity].
Qed.

(** The dictionary of the factor estimator always has the same eight
    keys. *)
Lemma factor_result_shape (g : rng_state) (a : Series F)
  (f : list (date * FactorRow F)) :
  exists v1 v2 v3 v4 v5 v6 v7 v8,
    fst (calculate_factor_exposure g a f) =
      [ ("market_beta", v1); ("smb_beta", v2); ("hml_beta", v3);
        ("alpha", v4); ("r_squared", v5); ("factor_pvalues", v6);
        ("n_observations", v7); ("regression_summary", v8) ].
Proof.
  unfold calculate_factor_exposure, factor_exposure_body, bind.
  destruct (asfreq_B a) as [e|ab].
  { unfold demo_error.
    repeat match goal with
           | |- context [normal ?m ?s ?g] => destruct (normal m s g)
           | |- context [random ?g] => destruct (random g)
           end.
    repeat eexists. }
  destruct (asfreq_B f) as [e|fb].
  { unfold demo_error.
    repeat match goal with
           | |- context [normal ?m ?s ?g] => destruct (normal m s g)
           | |- context [random ?g] => destruct (random g)
           end.
    repeat eexists. }
  destruct (_ <? 30)%nat.
  { unfold demo_small.
    repeat match goal with
           | |- context [normal ?m ?s ?g] => destruct (normal m s g)
           | |- context [random ?g] => destruct (random g)
           end.
    repeat eexists. }
  destruct (_ <? 30)%nat;
    [|destruct (OLS_fit _ _) as [e|model];
      [|unfold fitted_result, bind, getitem;
        repeat match goal with
               | |- context [assoc ?k ?s] => destruct (assoc k s)
               end]];
    try (cbn [fst]; repeat eexists; fail);
    unfold demo_error;
    repeat match goal with
           | |- context [normal ?m ?s ?g] => destruct (normal m s g)
           | |- context [random ?g] => destruct (random g)
           end;
    repeat eexists.
Qed.

(** X19.  [GET /api/multifactor] fails only when the returns cannot be fetched
    (status 400, the generator untouched); once they are fetched it always
    answers, with the ticker, the period, the eight keys of the estimator
    and the explanations, whatever the data. *)
Theorem api_multifactor_answers (now : Z) (g : rng_state)
  (ticker period : string) :
  match get_returns ticker period with
  | inl e =>
      api_multifactor now g ticker period
        = (raise (HTTPException 400 (str_exn e)), g)
  | inr _ =>
      exists d g',
        api_multifactor now g ticker period = (ret d, g') /\
        keys d = [ "ticker"; "period"; "market_beta"; "smb_beta";
                   "hml_beta"; "alpha"; "r_squared"; "factor_pvalues";
                   "n_observations"; "regression_summary";
                   "factor_explanations" ] /\
        assoc "ticker" d = Some (PyStr ticker) /\
        assoc "period" d = Some (PyStr period)
  end.
Proof.
  unfold api_multifactor.
  destruct (get_returns ticker period) as [e|r]; [reflexivity|].
  destruct (get_fama_french_factors now ticker) as [factors g1].
  destruct (factor_result_shape g1 r factors)
    as (v1 & v2 & v3 & v4 & v5 & v6 & v7 & v8 & Hs).
  destruct (calculate_factor_exposure g1 r factors) as [res g2].
  cbn [fst] in Hs. subst res. eexists. eexists.
  split; [reflexivity|]. repeat split.
Qed.

(** X20.  [GET /api/factors] returns four factor lists and a date list of 731
    entries each. *)
Theorem api_factors_lengths (now : Z) :
  exists mkt smb hml rf dates,
    fst (api_factors now) =
      [ ("factors", PyDict [ ("MKT_RF", PyList mkt); ("SMB", PyList smb);
                             ("HML", PyList hml); ("RF", PyList rf) ]);
        ("dates", PyList dates) ] /\
    List.length mkt = 731%nat /\ List.length smb = 731%nat /\
    List.length hml = 731%nat /\ List.length rf = 731%nat /\
    List.length dates = 731%nat.
Proof.
  unfold api_factors.
  pose proof (get_fama_french_factors_parts now "SPY") as (Hi & _ & _).
  destruct (get_fama_french_factors now "SPY") as [factors g].
  cbn [fst] in *.
  assert (L : List.length factors = 731%nat).
  { rewrite <- (length_map fst factors). fold (index factors).
    rewrite Hi. apply date_range_2y_length. }
  do 5 eexists. split; [reflexivity|].
  rewrite !length_map. repeat split; exact L.
Qed.

End RequestFacts.

(** ** The factor analyzer *)

Section FactorMore.
Context {F : Type} `{Float64 F} `{StatsModels F} `{NumPyRandom F}
        `{PandasResample F} `{PyRuntime}.

Lemma lower_ascii_idem (c : ascii) : lower_ascii (lower_ascii c) = lower_ascii c.
Proof. destruct c as [[] [] [] [] [] [] [] []]; reflexivity. Qed.

Lemma lower_upper_ascii (c : ascii) : lower_ascii (upper_ascii c) = lower_ascii c.
Proof. destruct c as [[] [] [] [] [] [] [] []]; reflexivity. Qed.

Lemma lower_idem (s : string) : lower (lower s) = lower s.
Proof.
  induction s as [|c s IH]; simpl; [reflexivity|].
  now rewrite lower_ascii_idem, IH.
Qed.

Lemma lower_upper (s : string) : lower (upper s) = lower s.
Proof.
  induction s as [|c s IH]; simpl; [reflexivity|].
  now rewrite lower_upper_ascii, IH.
Qed.


Lemma nth_map_seq {A} (f : nat -> A) (n k : nat) (d : A) :
  (k < n)%nat -> nth k (map f (seq 0 n)) d = f k.
Proof.
  intros Hk. rewrite (nth_indep _ d (f 0%nat))
    by now rewrite length_map, length_seq.
  rewrite map_nth, seq_nth by exact Hk. reflexivity.
Qed.

(** X22.  The frame has 731 rows, one a day: row [k] is dated [730 - k] days
    before the clock reading, so the first is 730 days back and the last
    is the clock reading itself. *)
Theorem factor_frame_days (now : Z) (ticker : string) :
  List.length (fst (get_fama_french_factors now ticker)) = 731%nat /\
  forall k, (k < 731)%nat ->
    nth k (index (fst (get_fama_french_factors now ticker))) 0%Z
      = (now - Z.of_nat (730 - k) * day_us)%Z.
Proof.
  destruct (get_fama_french_factors_parts now ticker) as (Hi & _ & _).
  split.
  - rewrite <- (length_map fst). fold (index (fst (get_fama_french_factors now ticker))).
    rewrite Hi. apply date_range_2y_length.
  - intros k Hk. rewrite Hi. unfold date_range_2y.
    rewrite nth_map_seq by exact Hk.
    replace (Z.of_nat (730 - k)) with (730 - Z.of_nat k)%Z by lia.
    unfold day_us. lia.
Qed.

Lemma loc_rows_length {A} (s : list (date * A)) (dates : list date) :
  (List.length (loc_rows s dates) <= List.length dates)%nat.
Proof.
  unfold loc_rows. induction dates as [|d dates IH]; simpl; [lia|].
  rewrite length_app. destruct (loc d s); simpl; lia.
Qed.

Lemma compress_length {A} (mask : list bool) (col : list A) :
  (List.length (compress mask col) <= List.length col)%nat.
Proof.
  unfold compress. rewrite length_map.
  etransitivity; [apply filter_length_le|].
  rewrite length_combine. lia.
Qed.

(** X23.  What [n_observations] can be: 100 (the [except] clause, or no common
    day), the number of common days when it is between 1 and 29, or the
    number of rows of the regression, which is at least 30 and at most the
    number of common days; in the last case no random number was drawn.
    It is never 0. *)
Theorem n_observations_cases (g : rng_state) (a : Series F)
  (f : list (date * FactorRow F)) :
  exists n,
    assoc "n_observations" (fst (calculate_factor_exposure g a f))
      = Some (PyInt n) /\
    (n = 100%Z \/
     (exists k, overlap a f = ret k /\ (0 < k < 30)%nat /\ n = Z.of_nat k) \/
     (exists k, overlap a f = ret k /\ (30 <= n <= Z.of_nat k)%Z /\
                snd (calculate_factor_exposure g a f) = g)).
Proof.
  unfold calculate_factor_exposure, factor_exposure_body, overlap, bind.
  destruct (asfreq_B a) as [e|ab].
  { exists 100%Z. split; [apply demo_error_n_observations|now left]. }
  destruct (asfreq_B f) as [e|fb].
  { exists 100%Z. split; [apply demo_error_n_observations|now left]. }
  set (common := intersection (index ab) (index fb)).
  destruct (List.length common <? 30)%nat eqn:L.
  { rewrite demo_small_n_observations. eexists. split; [reflexivity|].
    apply Nat.ltb_lt in L.
    destruct (0 <? List.length common)%nat eqn:Z0.
    - apply Nat.ltb_lt in Z0. right. left. exists (List.length common).
      split; [reflexivity|]. split; [lia|reflexivity].
    - now left. }
  apply Nat.ltb_ge in L.
  match goal with
  | |- context [if (List.length ?c <? 30)%nat then _ else _] =>
      set (clean := c); destruct (List.length clean <? 30)%nat eqn:L2
  end.
  { exists 100%Z. split; [apply demo_error_n_observations|now left]. }
  apply Nat.ltb_ge in L2.
  destruct (OLS_fit _ _) as [e|model].
  { exists 100%Z. split; [apply demo_error_n_observations|now left]. }
  destruct (fitted_result model (List.length clean)) as [e|d] eqn:Hd.
  { exists 100%Z. split; [apply demo_error_n_observations|now left]. }
  exists (Z.of_nat (List.length clean)). cbn [fst snd]. split.
  - unfold fitted_result, bind, getitem in Hd.
    repeat match type of Hd with
           | context [assoc ?k ?s] => destruct (assoc k s); [|discriminate]
           end.
    injection Hd as <-. reflexivity.
  - right. right. exists (List.length common). split; [reflexivity|].
    split; [|reflexivity]. split; [lia|].
    apply inj_le. unfold clean.
    etransitivity; [apply compress_length|].
    rewrite length_map, length_combine.
    etransitivity; [apply Nat.le_min_l|]. apply loc_rows_length.
Qed.

End FactorMore.

(** ** More of the estimator in exact arithmetic *)

Module ExactMore.
Import Exact ExactFacts ExactCAPM Fixtures.
Local Open Scope R_scope.

Lemma concat_inner_days (fv gv : nat -> R) (l : list nat) (b : Series xreal) :
  (forall i, In i l -> loc (Z.of_nat i) b = Some (XR (gv i))) ->
  concat_inner (map (fun i => (Z.of_nat i, XR (fv i))) l) b
    = map (fun i => (Z.of_nat i, (XR (fv i), XR (gv i)))) l.
Proof.
  induction l as [|i l IH]; intros Hb; simpl; [reflexivity|].
  rewrite (Hb i) by now left. rewrite IH; [reflexivity|].
  intros j Hj. apply Hb. now right.
Qed.

(** Two series on the same [n] days are aligned day by day. *)
Lemma aligned_days (f g : nat -> R) (n : nat) :
  aligned_rows (finite_series (days f n)) (finite_series (days g n))
    = finite_rows (day_rows f g n).
Proof.
  unfold aligned_rows, finite_series, days, day_rows. rewrite !map_map.
  cbn [fst snd].
  rewrite (@concat_inner_days f g (seq 0 n)).
  - replace (map (fun i => (Z.of_nat i, (XR (f i), XR (g i)))) (seq 0 n))
      with (finite_rows (map (fun i => (Z.of_nat i, (f i, g i))) (seq 0 n)))
      by (unfold finite_rows; now rewrite map_map).
    apply dropna2_finite.
  - intros i Hi.
    apply (@loc_self xreal (map (fun j => (Z.of_nat j, XR (g j))) (seq 0 n))
             (NoDup_days (fun j => XR (g j)) n) (Z.of_nat i, XR (g i))).
    apply (in_map (fun j => (Z.of_nat j, XR (g j)))). exact Hi.
Qed.





Lemma xpower_one (x : R) : xpower (XR x) (XR (252 / 252)) = XR x.
Proof.
  replace (252 / 252) with 1 by field. unfold xpower.
  destruct (Rlt_dec 0 x) as [Hx|Hx].
  - now rewrite Rpower_1.
  - destruct (Req_dec_T x 0) as [->|Hz].
    + destruct (Rlt_dec 0 1) as [_|N]; [reflexivity|lra].
    + assert (E : Int_part 1 = 1%Z).
      { symmetry. apply Int_part_spec. lra. }
      unfold is_integer. rewrite E.
      destruct (Req_dec_T 1 1) as [_|N]; [|lra].
      now rewrite powerRZ_1.
Qed.

Lemma np_prod_finite (l : list R) (acc : R) :
  exists P,
    fold_left fmul (map (fun x => of_int 1 + x)%py (map XR l)) (XR acc) = XR P.
Proof.
  revert acc. induction l as [|x l IH]; intros acc; simpl.
  - now exists acc.
  - apply IH.
Qed.

Lemma no_nan_finite (l : list xreal) :
  (forall x, In x l -> isnan x = false) -> exists lr, l = map XR lr.
Proof.
  induction l as [|x l IH]; intros Hn.
  - now exists [].
  - destruct IH as [lr ->]; [intros y Hy; apply Hn; now right|].
    pose proof (Hn x (or_introl eq_refl)) as Hx.
    destruct x as [|r]; [discriminate|]. now exists (r :: lr).
Qed.


Lemma flat_year_runs :
  exists d,
    capm_exact no_inference
      (finite_series (days (fun _ => 1 / 1000) 252))
      (finite_series (days INR 252)) (XR 0) = ret d.
Proof.
  assert (Hlen : List.length (day_rows (fun _ => 1 / 1000) INR 252) = 252%nat)
    by (unfold day_rows; now rewrite length_map, length_seq).
  destruct (@capm_on_line no_inference
              (finite_series (days (fun _ => 1 / 1000) 252))
              (finite_series (days INR 252)) 0
              (day_rows (fun _ => 1 / 1000) INR 252) (1 / 1000 - 0 / 252) 0)
    as (d & Hd & _).
  - apply aligned_days.
  - rewrite Hlen. lia.
  - intros r Hr. unfold day_rows in Hr. apply in_map_iff in Hr.
    destruct Hr as (i & <- & _). cbn [fst snd]. lra.
  - exists (Z.of_nat 0, (1 / 1000, INR 0)), (Z.of_nat 1, (1 / 1000, INR 1)).
    repeat split.
    + apply (in_map (fun i => (Z.of_nat i, (1 / 1000, INR i)))).
      apply in_seq. lia.
    + apply (in_map (fun i => (Z.of_nat i, (1 / 1000, INR i)))).
      apply in_seq. lia.
    + cbn [fst snd INR]. lra.
  - now exists d.
Qed.

Lemma flat_year_length :
  List.length
    (aligned_rows (finite_series (days (fun _ => 1 / 1000) 252))
                  (finite_series (days INR 252))) = 252%nat.
Proof.
  rewrite aligned_days. unfold finite_rows, day_rows.
  now rewrite !length_map, length_seq.
Qed.



Lemma pct_changes_prices (rest : list (date * R)) :
  forall prev, prev <> 0 ->
    (forall row, In row rest -> snd row <> 0) ->
    pct_changes (XR prev) (finite_series rest)
      = finite_series (simple_returns prev rest).
Proof.
  induction rest as [|[d p] tl IH]; intros prev Hp Hr; [reflexivity|].
  cbn [finite_series map fst snd pct_changes simple_returns].
  cbn [fdiv fsub of_int xreal64 xdiv lift2].
  destruct (Req_dec_T prev 0) as [E|_]; [contradiction|].
  f_equal. apply IH.
  - exact (Hr (d, p) (or_introl eq_refl)).
  - intros row Hrow. apply Hr. now right.
Qed.

Lemma dropna_finite_series (l : list (date * R)) :
  dropna (finite_series l) = finite_series l.
Proof.
  unfold dropna, finite_series. induction l as [|r l IH]; [reflexivity|].
  cbn [map filter snd isnan xreal64 xisnan negb]. f_equal. exact IH.
Qed.

Lemma prod_simple_returns (rest : list (date * R)) :
  forall prev acc, prev <> 0 ->
    (forall row, In row rest -> snd row <> 0) ->
    fold_left fmul
      (map (fun x => of_int 1 + x)%py
           (values (finite_series (simple_returns prev rest))))
      (XR acc)
    = XR (acc * (last_price prev rest / prev)).
Proof.
  induction rest as [|[d p] tl IH]; intros prev acc Hp Hr.
  - cbn. f_equal. field. exact Hp.
  - assert (Hp' : p <> 0) by exact (Hr (d, p) (or_introl eq_refl)).
    cbn [simple_returns finite_series values map fst snd fold_left last_price].
    cbn [fmul fadd of_int xreal64 lift2].
    change (map snd (map (fun r => (fst r, XR (snd r))) (simple_returns p tl)))
      with (values (finite_series (simple_returns p tl))).
    rewrite (IH p _ Hp'); [|intros row Hrow; apply Hr; now right].
    f_equal. field. split; assumption.
Qed.



End ExactMore.

(** ** Runs of the routes on the fixtures *)

Module MoreExamples.
Import Binary64 Exact ExactFacts ExactCAPM ExactMore Fixtures.
Local Open Scope R_scope.

Lemma capm_exact_eq (inf : Inference) (a m : Series xreal) (rf : xreal) :
  capm_exact inf a m rf
    = @calculate_capm xreal xreal64 exact_power (exact_ols inf) a m rf.
Proof. reflexivity. Qed.

Lemma pct_changes_rising (n s : nat) :
  pct_changes (XR (INR (S s)))
    (map (fun i => ((Z.of_nat i - 1)%Z, XR (INR (S i)))) (seq (S s) n))
  = map (fun i => ((Z.of_nat i - 1)%Z, XR (INR (S i) / INR i - 1)))
        (seq (S s) n).
Proof.
  revert s. induction n as [|n IH]; intros s; [reflexivity|].
  cbn [seq map pct_changes]. rewrite IH.
  cbn [fdiv fsub of_int xreal64 xdiv lift2].
  destruct (Req_dec_T (INR (S s)) 0) as [E|_]; [|reflexivity].
  exfalso. revert E. apply not_0_INR. discriminate.
Qed.

Lemma dropna_finite_map {A} (d : A -> date) (v : A -> R) (l : list A) :
  dropna (map (fun i => (d i, XR (v i))) l) = map (fun i => (d i, XR (v i))) l.
Proof.
  unfold dropna. induction l as [|i l IH]; [reflexivity|].
  cbn [map filter snd isnan xreal64 xisnan negb]. f_equal. exact IH.
Qed.

(** The returns of the rising provider: day [j] has the return [rise j],
    for the 31 days 0, ..., 30. *)
Lemma rising_returns (ticker period : string) :
  @get_returns xreal xreal64 rising_feed ticker period
    = ret (finite_series (days rise 31)).
Proof.
  unfold get_returns, returns_of_history. cbn [history rising_feed].
  change (seq 0 32) with (0%nat :: seq 1 31). cbn [map bind try_except].
  rewrite dropna_pct_change, (pct_changes_rising 31 0), dropna_finite_map.
  unfold finite_series, days. rewrite map_map. cbn [fst snd].
  rewrite <- seq_shift, map_map. apply f_equal. apply map_ext. intros j.
  unfold rise. f_equal. lia.
Qed.

Lemma rising_rate :
  @get_risk_free_rate xreal xreal64 rising_feed = XR (INR 32 / 100).
Proof.
  unfold get_risk_free_rate. cbn [history rising_feed].
  change (seq 0 32) with (seq 0 31 ++ [31%nat]).
  rewrite map_app, rev_app_distr.
  cbn [map rev app fdiv xreal64 xdiv of_int].
  destruct (Req_dec_T 100 0) as [E|_]; [lra|reflexivity].
Qed.

Lemma concat_days (f g : nat -> R) (n : nat) :
  concat_inner (finite_series (days f n)) (finite_series (days g n))
    = map (fun i => (Z.of_nat i, (XR (f i), XR (g i)))) (seq 0 n).
Proof.
  unfold finite_series, days. rewrite !map_map. cbn [fst snd].
  apply (@concat_inner_days f g (seq 0 n)). intros i Hi.
  apply (@loc_self xreal (map (fun j => (Z.of_nat j, XR (g j))) (seq 0 n))
           (NoDup_days (fun j => XR (g j)) n) (Z.of_nat i, XR (g i))).
  apply (in_map (fun j => (Z.of_nat j, XR (g j)))). exact Hi.
Qed.

Lemma align_days (f g : nat -> R) (n : nat) :
  align_inner (finite_series (days f n)) (finite_series (days g n))
    = (finite_series (days f n), finite_series (days g n)).
Proof.
  unfold align_inner. rewrite concat_days.
  unfold finite_series, days. now rewrite !map_map.
Qed.

Lemma days_length (f : nat -> R) (n : nat) :
  List.length (finite_series (days f n)) = n.
Proof. unfold finite_series, days. now rewrite !length_map, length_seq. Qed.

Lemma rise_varies : rise 0 <> rise 1.
Proof. unfold rise. rewrite !S_INR. cbn [INR]. lra. Qed.

(** The estimator runs on 31 days of an asset that returns what the market
    returns. *)
Lemma capm_on_rise (f : nat -> R) (rf : R) :
  (forall i, f i = rise i) ->
  exists d,
    @calculate_capm xreal xreal64 exact_power (exact_ols no_inference)
      (finite_series (days f 31)) (finite_series (days rise 31)) (XR rf)
    = ret d.
Proof.
  intros Hf.
  destruct (@capm_on_line no_inference
              (finite_series (days f 31)) (finite_series (days rise 31)) rf
              (day_rows f rise 31) 0 1)
    as (d & Hd & _).
  - apply aligned_days.
  - unfold day_rows. rewrite length_map, length_seq. lia.
  - intros r Hr. unfold day_rows in Hr. apply in_map_iff in Hr.
    destruct Hr as (i & <- & _). cbn [fst snd]. rewrite Hf. lra.
  - exists (Z.of_nat 0, (f 0%nat, rise 0)), (Z.of_nat 1, (f 1%nat, rise 1)).
    repeat split.
    + apply (in_map (fun i => (Z.of_nat i, (f i, rise i)))).
      apply in_seq. lia.
    + apply (in_map (fun i => (Z.of_nat i, (f i, rise i)))).
      apply in_seq. lia.
    + cbn [fst snd]. exact rise_varies.
  - exists d. rewrite <- capm_exact_eq. exact Hd.
Qed.

Lemma rising_capm :
  exists d,
    @calculate_capm xreal xreal64 exact_power (exact_ols no_inference)
      (finite_series (days rise 31)) (finite_series (days rise 31))
      (XR (INR 32 / 100))
    = ret d.
Proof. apply capm_on_rise. reflexivity. Qed.

Lemma rising_api_capm :
  exists d,
    @api_capm xreal xreal64 exact_power (exact_ols no_inference) rising_feed
      "AAPL" "1y" = ret d.
Proof.
  destruct rising_capm as [capm Hc].
  apply (@api_capm_run xreal xreal64 exact_power (exact_ols no_inference)
           rising_feed "AAPL" "1y" _ _ capm
           (rising_returns "AAPL" "1y") (rising_returns "^GSPC" "1y")).
  rewrite rising_rate. exact Hc.
Qed.

Lemma validate_full_weight (t : string) :
  @validate_portfolio xreal xreal64 [t] [XR 100] = ret (XR (0 + 100)).
Proof.
  apply validate_portfolio_inr. split; [reflexivity|].
  split; [discriminate|]. split; [reflexivity|].
  unfold py_sum, decimal.
  cbn [fold_left fadd fsub fabs fdiv fgt of_int xreal64 lift2 xabs xdiv].
  destruct (Req_dec_T 100 0) as [E|_]; [lra|]. cbn [xgt].
  destruct (Rlt_dec _ _) as [L|_]; [|reflexivity]. exfalso.
  replace (0 + 100 - 100) with 0 in L by ring. rewrite Rabs_R0 in L. lra.
Qed.

Lemma scale_days (f : nat -> R) (n : nat) :
  scale (finite_series (days f n)) (XR 100 / of_int 100)%py
    = finite_series (days (fun i => f i * (100 / 100)) n).
Proof.
  unfold scale, finite_series, days. rewrite !map_map.
  cbn [fst snd fdiv fmul of_int xreal64 xdiv lift2].
  destruct (Req_dec_T 100 0) as [E|_]; [lra|]. reflexivity.
Qed.

Lemma rising_portfolio :
  exists d,
    @portfolio_capm xreal xreal64 exact_power (exact_ols no_inference)
      rising_feed ["AAPL"] [XR 100] = ret d.
Proof.
  destruct (@capm_on_rise (fun i => rise i * (100 / 100)) (INR 32 / 100))
    as [capm Hc]; [intros i; field|].
  apply (@portfolio_capm_run xreal xreal64 exact_power
           (exact_ols no_inference) rising_feed ["AAPL"] [XR 100]
           (XR (0 + 100))
           (dict_set "AAPL" (finite_series (days rise 31)) [])
           (finite_series (days (fun i => rise i * (100 / 100)) 31))
           (finite_series (days rise 31))
           (finite_series (days (fun i => rise i * (100 / 100)) 31))
           (finite_series (days rise 31)) capm).
  - apply validate_full_weight.
  - cbn [fetch_all]. now rewrite rising_returns.
  - cbn [combine weighted_sum]. unfold getitem.
    rewrite assoc_dict_set_same. cbn [bind]. now rewrite scale_days.
  - rewrite days_length. lia.
  - apply rising_returns.
  - apply align_days.
  - rewrite days_length. lia.
  - rewrite rising_rate. exact Hc.
Qed.

(** *** Examples of the hypotheses of the properties above *)

Lemma get_returns_failure_witness :
  exists e,
    @get_returns float _ down_feed "AAPL" "2y" = raise e /\
    status_of e = Some 400%Z.
Proof.
  eexists. split; [reflexivity|].
  exact (proj1 (@get_returns_failure float _ down_feed "AAPL" "2y" _ eq_refl)).
Defined.

Lemma get_returns_clean_witness :
  exists d0 p0 rest,
    @history float three_price_feed "AAPL" "2y" = ret ((d0, p0) :: rest) /\
    (forall row,
       In row (dropna (@pct_change float _ [(0%Z, of_int 100); (1%Z, of_int 110);
                                   (2%Z, of_int 99)])) ->
       isnan (snd row) = false) /\
    (List.length (dropna (@pct_change float _ [(0%Z, of_int 100); (1%Z, of_int 110);
                                      (2%Z, of_int 99)]))
       <= List.length rest)%nat /\
    incl (index (dropna (@pct_change float _ [(0%Z, of_int 100); (1%Z, of_int 110);
                                     (2%Z, of_int 99)])))
         (index rest).
Proof.
  exact (@get_returns_clean float _ three_price_feed "AAPL" "2y" _ eq_refl).
Defined.

Lemma calculate_capm_shape_witness :
  exists d,
    @calculate_capm xreal xreal64 exact_power (exact_ols no_inference)
      (finite_series (days rise 31)) (finite_series (days rise 31))
      (XR (INR 32 / 100)) = ret d /\
    assoc "treasury_yield" d = Some (PyFloat (XR (INR 32 / 100))).
Proof.
  destruct rising_capm as [d Hd]. exists d. split; [exact Hd|].
  exact (proj2 (proj2 (proj2
    (@calculate_capm_shape xreal xreal64 exact_power (exact_ols no_inference)
       (finite_series (days rise 31)) (finite_series (days rise 31))
       (XR (INR 32 / 100)) d Hd)))).
Defined.


Lemma api_capm_failure_witness :
  exists e,
    @api_capm xreal xreal64 exact_power (exact_ols no_inference) down_feed
      "AAPL" "1y" = raise e /\
    status_of e = Some 400%Z.
Proof.
  eexists. split; [reflexivity|].
  exact (@api_capm_failure xreal xreal64 exact_power (exact_ols no_inference)
           down_feed "AAPL" "1y" _ eq_refl).
Defined.

Lemma api_capm_response_witness :
  exists d,
    @api_capm xreal xreal64 exact_power (exact_ols no_inference) rising_feed
      "AAPL" "1y" = ret d /\
    assoc "ticker" d = Some (PyStr "AAPL") /\
    assoc "period" d = Some (PyStr "1y").
Proof.
  destruct rising_api_capm as [d Hd]. exists d. split; [exact Hd|].
  destruct (@api_capm_response xreal xreal64 exact_power
              (exact_ols no_inference) rising_feed "AAPL" "1y" d Hd)
    as (_ & Ht & Hp & _).
  split; assumption.
Defined.

Lemma portfolio_capm_failure_witness :
  exists e,
    @portfolio_capm xreal xreal64 exact_power (exact_ols no_inference)
      down_feed ["AAPL"; "MSFT"] [XR 100] = raise e /\
    exists c d,
      e = HTTPException c d /\
      (c = 400%Z \/
       (c = 500%Z /\ exists msg, d = Txt "CAPM calculation failed: " :: msg)).
Proof.
  eexists. split; [reflexivity|].
  exact (@portfolio_capm_failure xreal xreal64 exact_power
           (exact_ols no_inference) down_feed ["AAPL"; "MSFT"] [XR 100]
           _ eq_refl).
Defined.

Lemma portfolio_capm_fetch_failure_witness :
  exists t' msg,
    In t' ["AAPL"] /\
    @portfolio_capm xreal xreal64 exact_power (exact_ols no_inference)
      down_feed ["AAPL"] [XR 100] =
      raise (HTTPException 400
               (Txt "Error fetching data for " :: Txt t' :: Txt ": "
                  :: IntV 400 :: Txt ": "
                  :: Txt "Error fetching data for " :: Txt t' :: Txt ": "
                  :: msg)).
Proof.
  exact (@portfolio_capm_fetch_failure xreal xreal64 exact_power
           (exact_ols no_inference) down_feed ["AAPL"] [XR 100]
           (XR (0 + 100)) "AAPL" _
           (validate_full_weight "AAPL") (or_introl eq_refl) eq_refl).
Defined.


Lemma half_half_composite :
  @weighted_sum float _ two_assets half_half None
  = ret (Some [(1%Z, (decimal 1 100 * decimal 5 10
                      + decimal 3 100 * decimal 5 10)%py)]).
Proof. vm_compute. reflexivity. Qed.

Lemma composite_dates_common_witness :
  @weighted_sum float _ two_assets half_half None
    = ret (Some [(1%Z, (decimal 1 100 * decimal 5 10
                        + decimal 3 100 * decimal 5 10)%py)]) /\
  forall d,
    In d (index [(1%Z, (decimal 1 100 * decimal 5 10
                        + decimal 3 100 * decimal 5 10)%py)]) ->
    forall tw, In tw half_half ->
      exists r, assoc (fst tw) two_assets = Some r /\ In d (index r).
Proof.
  split; [exact half_half_composite|].
  exact (@composite_dates_common float _ two_assets half_half _
           half_half_composite).
Defined.

Lemma parse_tickers_clean_witness :
  parse_tickers " aapl, msft ,," = ["AAPL"; "MSFT"] /\
  "MSFT"%string <> EmptyString /\
  contains "," "MSFT" = false /\
  upper "MSFT" = "MSFT"%string /\
  strip "MSFT" = "MSFT"%string.
Proof.
  split; [reflexivity|].
  apply (@parse_tickers_clean " aapl, msft ,," "MSFT").
  right. left. reflexivity.
Defined.

Lemma unparsable_weight_is_500_witness :
  exists w',
    In w' (split_comma "60,forty") /\
    @float_of_str xreal digits_only (strip w') = None /\
    @portfolio_capm_request xreal xreal64 exact_power
      (exact_ols no_inference) down_feed digits_only "AAPL,MSFT" "60,forty"
    = raise (HTTPException 500
               [Txt "Portfolio analysis failed: ";
                Txt "could not convert string to float: ";
                Txt (@py_repr xreal digits_only (strip w'))]).
Proof.
  apply (@unparsable_weight_is_500 xreal xreal64 exact_power
           (exact_ols no_inference) down_feed digits_only
           "AAPL,MSFT" "60,forty" "forty").
  - right. left. reflexivity.
  - reflexivity.
  - reflexivity.
Defined.

End MoreExamples.
